(** * College management API: admissions, students, attendance, login

    A shallow embedding of [main.py] and [schemas.py].  Requests are the
    pydantic models after validation, documents are Python dicts (ordered
    key/value lists), a collection is the list of its documents in natural
    order, and an endpoint is a state-passing function over the store
    handle [db] and the clock. *)

From Stdlib Require Import Ascii String.
From stdpp Require Import base option list strings gmap pretty.


(** ** Dates and times ([datetime.date], [datetime.datetime]) *)

Record date := Date { year : nat; month : nat; day : nat }.

Record time := Time { hour : nat; minute : nat; second : nat; microsecond : nat }.

Record datetime := DateTime { dt_date : date; dt_time : time }.

#[global] Instance date_eq_dec : EqDecision date.
Proof. solve_decision. Defined.

#[global] Instance time_eq_dec : EqDecision time.
Proof. solve_decision. Defined.

#[global] Instance datetime_eq_dec : EqDecision datetime.
Proof. solve_decision. Defined.

(** [datetime.min.time()] *)
Definition min_time : time := Time 0 0 0 0.

(** [datetime.combine(d, t)] and [dt.date()] *)
Definition combine (d : date) (t : time) : datetime := DateTime d t.

(** [s.zfill(width)] on a string of digits *)
Definition zfill (width : nat) (s : string) : string :=
  String.concat EmptyString (replicate (width - String.length s) "0") +:+ s.

(** [date.isoformat()]: [YYYY-MM-DD] *)
Definition date_isoformat (d : date) : string :=
  zfill 4 (pretty (year d)) +:+ "-" +:+ zfill 2 (pretty (month d))
    +:+ "-" +:+ zfill 2 (pretty (day d)).

(** [time.isoformat()]: [HH:MM:SS], with [.ffffff] when the microsecond is
    not zero *)
Definition time_isoformat (t : time) : string :=
  zfill 2 (pretty (hour t)) +:+ ":" +:+ zfill 2 (pretty (minute t))
    +:+ ":" +:+ zfill 2 (pretty (second t))
    +:+ (if decide (microsecond t = 0) then EmptyString
         else "." +:+ zfill 6 (pretty (microsecond t))).

(** [datetime.isoformat(sep)]; the default separator is ["T"], [str(dt)]
    uses a space *)
Definition datetime_isoformat_sep (sep : string) (t : datetime) : string :=
  date_isoformat (dt_date t) +:+ sep +:+ time_isoformat (dt_time t).

Definition datetime_isoformat : datetime → string := datetime_isoformat_sep "T".

(** ** The platform: bson's ObjectId, identifier generation, the clock

    [ObjectId_of_str s] is [ObjectId(s)], [None] where the constructor
    raises; [ObjectId_str] is [str(oid)]; [ObjectId_fresh n] is the n-th
    identifier the store generates; [utcnow_at n] is the n-th reading of
    [datetime.utcnow()]. *)

Class Platform := {
  ObjectId : Type;
  ObjectId_eq_dec :: EqDecision ObjectId;
  ObjectId_of_str : string → option ObjectId;
  ObjectId_str : ObjectId → string;
  ObjectId_fresh : nat → ObjectId;
  utcnow_at : nat → datetime;
}.

(** A reference platform, to run the model on concrete requests: an
    identifier is 24 hexadecimal digits, printed in lower case; the n-th
    generated identifier is [n] in decimal, zero-filled; the clock starts
    on 2024-03-01 at 09:00 and advances one second per reading.  It is
    stricter than bson, which also reads some 24-character strings with
    blanks; the general statements are about any platform and the concrete
    cases use identifiers of hexadecimal digits only. *)

Definition is_hex (c : ascii) : bool :=
  let n := nat_of_ascii c in
  ((48 <=? n) && (n <=? 57)) || ((97 <=? n) && (n <=? 102))
    || ((65 <=? n) && (n <=? 70)).

Definition lower (c : ascii) : ascii :=
  let n := nat_of_ascii c in
  if (65 <=? n) && (n <=? 90) then ascii_of_nat (n + 32) else c.

Definition hex24_of_str (s : string) : option string :=
  if (String.length s =? 24) && forallb is_hex (list_ascii_of_string s)
  then Some (string_of_list_ascii (map lower (list_ascii_of_string s)))
  else None.

Definition reference_platform : Platform := {|
  ObjectId := string;
  ObjectId_of_str := hex24_of_str;
  ObjectId_str := λ o, o;
  ObjectId_fresh := λ n, zfill 24 (pretty n);
  utcnow_at := λ n,
    DateTime (Date 2024 3 1) (Time 9 ((n `div` 60) `mod` 60) (n `mod` 60) 0);
|}.

(** ** Requests ([main.py]) and schemas ([schemas.py]) after validation *)

Module LoginRequest.
Record t := mk { email : string; password : string }.
End LoginRequest.

Module AttendanceRequest.
(** [status: str = "present"], [note: Optional[str] = None] *)
Record t := mk {
  student_id : string;
  date : date;
  status : string;
  note : option string;
}.
End AttendanceRequest.

(** [Literal["pending", "accepted", "rejected"]] *)
Inductive admission_status := pending | accepted | rejected.

Definition admission_status_str (s : admission_status) : string :=
  match s with
  | pending => "pending"
  | accepted => "accepted"
  | rejected => "rejected"
  end.

Module Admission.
Record t := mk {
  full_name : string;
  email : string;
  phone : string;
  address : string;
  program : string;
  dob : date;
  previous_education : option string;
  status : admission_status;
}.

(** The request body of [POST /api/admissions]: the two fields that
    carry a default in the schema may be left out. *)
Record body := mk_body {
  b_full_name : string;
  b_email : string;
  b_phone : string;
  b_address : string;
  b_program : string;
  b_dob : date;
  b_previous_education : option string;
  b_status : option admission_status;
}.

(** The model's constructor on a body: [previous_education] defaults to
    [None], [status] to ["pending"]. *)
Definition of_body (b : body) : t := {|
  full_name := b_full_name b;
  email := b_email b;
  phone := b_phone b;
  address := b_address b;
  program := b_program b;
  dob := b_dob b;
  previous_education := b_previous_education b;
  status := default pending (b_status b);
|}.
End Admission.

(** ** Values and documents *)

Section model.
Context `{PF : Platform}.

Inductive value :=
  | VNone
  | VBool (b : bool)
  | VInt (n : Z)
  | VStr (s : string)
  | VDate (d : date)
  | VDateTime (t : datetime)
  | VOid (o : ObjectId).

#[global] Instance value_eq_dec : EqDecision value.
Proof. solve_decision. Defined.

(** [str(v)] *)
Definition str (v : value) : string :=
  match v with
  | VNone => "None"
  | VBool b => if b then "True" else "False"
  | VInt n => pretty n
  | VStr s => s
  | VDate d => date_isoformat d
  | VDateTime t => datetime_isoformat_sep " " t
  | VOid o => ObjectId_str o
  end.

(** A dict, in insertion order. *)
Definition doc := list (string * value).

(** [d.get(k)] *)
Fixpoint dict_get (k : string) (d : doc) : option value :=
  match d with
  | [] => None
  | (k', v) :: d' => if decide (k' = k) then Some v else dict_get k d'
  end.

(** [d[k] = v]: an existing key keeps its place, a new one goes last *)
Fixpoint dict_set (k : string) (v : value) (d : doc) : doc :=
  match d with
  | [] => [(k, v)]
  | (k', v') :: d' =>
      if decide (k' = k) then (k, v) :: d' else (k', v') :: dict_set k v d'
  end.

(** [d.update(u)] *)
Definition dict_update (d u : doc) : doc :=
  fold_left (λ acc kv, dict_set kv.1 kv.2 acc) u d.

(** [d.get(k, default)] *)
Definition dict_get_default (k : string) (dflt : value) (d : doc) : value :=
  default dflt (dict_get k d).

(** [if not doc]: an empty dict is falsy *)
Definition dict_truthy (d : doc) : bool :=
  match d with [] => false | _ => true end.

(** [Admission.model_dump()]: the fields in declaration order *)
Definition model_dump (a : Admission.t) : doc :=
  [ ("full_name", VStr (Admission.full_name a));
    ("email", VStr (Admission.email a));
    ("phone", VStr (Admission.phone a));
    ("address", VStr (Admission.address a));
    ("program", VStr (Admission.program a));
    ("dob", VDate (Admission.dob a));
    ("previous_education",
       from_option VStr VNone (Admission.previous_education a));
    ("status", VStr (admission_status_str (Admission.status a))) ].

(** ** The document store

    A database maps a collection name to its documents; a collection that
    was never written is empty.  [generated] counts the identifiers the
    store has handed out.  [db] is the handle imported from [database]:
    [None] when no store is configured. *)

Record Database := mkDatabase {
  collections : gmap string (list doc);
  generated : nat;
}.

Record World := mkWorld {
  db : option Database;
  clock : nat;
}.

(** [db[name]] *)
Definition collection (d : Database) (name : string) : list doc :=
  default [] (collections d !! name).

Definition set_collection (name : string) (c : list doc) (d : Database)
  : Database :=
  mkDatabase (<[name := c]> (collections d)) (generated d).

(** A query [{k: v, ...}] selects the documents whose field [k] equals [v]
    for every pair; a [None] in the query also selects a document without
    the field. *)
Definition field_matches (d : doc) (kv : string * value) : Prop :=
  match dict_get kv.1 d with
  | Some w => w = kv.2
  | None => kv.2 = VNone
  end.

#[global] Instance field_matches_dec d kv : Decision (field_matches d kv).
Proof. unfold field_matches. destruct (dict_get kv.1 d); apply _. Defined.

Definition matches (filt d : doc) : Prop := Forall (field_matches d) filt.

#[global] Instance matches_dec filt d : Decision (matches filt d).
Proof. unfold matches. apply _. Defined.

(** [coll.find_one(filt)]: the first match in natural order *)
Definition find_one (filt : doc) (c : list doc) : option doc :=
  snd <$> list_find (matches filt) c.

(** [coll.find(filt)] *)
Definition find (filt : doc) (c : list doc) : list doc :=
  filter (matches filt) c.

(** [coll.insert_one(data)] for a document without [_id], the only use
    here: the store generates the identifier; the result is
    [inserted_id]. *)
Definition insert_one (name : string) (data : doc) (d : Database)
  : ObjectId * Database :=
  let oid := ObjectId_fresh (generated d) in
  (oid,
   mkDatabase
     (<[name := collection d name ++ [("_id", VOid oid) :: data]]>
        (collections d))
     (S (generated d))).

(** [coll.update_one(filt, {"$set": set_, "$setOnInsert": on_insert},
    upsert=upsert)]: the first match gets the [$set] fields; without a
    match and with [upsert], a new document is made of the query's fields,
    the [$set] fields and the [$setOnInsert] fields. *)
Definition update_one (name : string) (filt set_ on_insert : doc)
    (upsert : bool) (d : Database) : Database :=
  match list_find (matches filt) (collection d name) with
  | Some (i, old) =>
      set_collection name (<[i := dict_update old set_]> (collection d name)) d
  | None =>
      if upsert then
        (insert_one name (dict_update (dict_update filt set_) on_insert) d).2
      else d
  end.

(** ** Exceptions and the endpoint monad *)

Inductive exn :=
  | HTTPException (status_code : nat) (detail : string)
  | Exception (msg : string).

Inductive outcome (A : Type) :=
  | Ok (a : A)
  | Raise (e : exn).
#[global] Arguments Ok {A} a.
#[global] Arguments Raise {A} e.

Definition M (A : Type) : Type := World → outcome A * World.

#[global] Instance M_ret : MRet M := λ A a w, (Ok a, w).

#[global] Instance M_bind : MBind M := λ A B f m w,
  match m w with
  | (Ok a, w') => f a w'
  | (Raise e, w') => (Raise e, w')
  end.

Definition raise {A} (e : exn) : M A := λ w, (Raise e, w).

(** [str(e)]; an [HTTPException] prints as [status: detail] *)
Definition str_exn (e : exn) : string :=
  match e with
  | Exception msg => msg
  | HTTPException c d => pretty c +:+ ": " +:+ d
  end.

(** [try: m  except Exception as e: raise h(e)] *)
Definition try_except {A} (m : M A) (h : exn → exn) : M A := λ w,
  match m w with
  | (Ok a, w') => (Ok a, w')
  | (Raise e, w') => (Raise (h e), w')
  end.

(** the global [db] *)
Definition get_db : M (option Database) := λ w, (Ok (db w), w).

(** A store call on the handle; on [None] Python raises a [TypeError].
    A call on a handle that is there is taken to return: failures of the
    store itself (a lost connection, a refused write) are outside the model,
    and the statements below speak of the runs in which the store
    answers. *)
Definition on_db {A} (f : Database → A * Database) : M A := λ w,
  match db w with
  | Some d => let r := f d in (Ok r.1, mkWorld (Some r.2) (clock w))
  | None => (Raise (Exception "'NoneType' object is not subscriptable"), w)
  end.

(** A read-only store call, under the same reading. *)
Definition query_db {A} (f : Database → A) : M A := λ w,
  match db w with
  | Some d => (Ok (f d), w)
  | None => (Raise (Exception "'NoneType' object is not subscriptable"), w)
  end.

(** [datetime.utcnow()] *)
Definition utcnow : M datetime := λ w,
  (Ok (utcnow_at (clock w)), mkWorld (db w) (S (clock w))).

(** [doc[k]], a [KeyError] when the key is missing *)
Definition getitem (d : doc) (k : string) : M value :=
  match dict_get k d with
  | Some v => mret v
  | None => raise (Exception ("'" +:+ k +:+ "'"))
  end.

(** [ObjectId(s)] under [try ... except Exception: raise e] *)
Definition ObjectId_or_raise (s : string) (e : exn) : M ObjectId :=
  match ObjectId_of_str s with
  | Some oid => mret oid
  | None => raise e
  end.

(** ** Responses: a JSON object whose members are values or flat objects,
    or a list of documents *)

Inductive json :=
  | JVal (v : value)
  | JObj (fields : doc).

Inductive response :=
  | RObj (members : list (string * json))
  | RList (docs : list doc).

(** ** [main.py] *)

(** The value [serialize_doc] writes for a field other than [_id]:
    dates and datetimes in ISO format, anything else as it is. *)
Definition serialize_value (v : value) : value :=
  match v with
  | VDateTime t => VStr (datetime_isoformat t)
  | VDate d => VStr (date_isoformat d)
  | v => v
  end.

(** One turn of the loop of [serialize_doc]. *)
Definition serialize_field (out : doc) (kv : string * value) : doc :=
  if decide (kv.1 = "_id") then dict_set "id" (VStr (str kv.2)) out
  else dict_set kv.1 (serialize_value kv.2) out.

Definition serialize_doc (d : doc) : doc :=
  if dict_truthy d then fold_left serialize_field d [] else d.

(** [if not x] for the result of [find_one] *)
Definition not_ (x : option doc) : bool :=
  match x with
  | Some d => negb (dict_truthy d)
  | None => true
  end.

Definition ensure_default_admin : M unit :=
  h ← get_db;
  match h with
  | None => mret ()
  | Some _ =>
      existing ← query_db (λ d, find_one [] (collection d "adminuser"));
      if not_ existing then
        created_at ← utcnow;
        updated_at ← utcnow;
        on_db (insert_one "adminuser"
                 [ ("name", VStr "Default Admin");
                   ("email", VStr "admin@college.edu");
                   ("password", VStr "admin123");
                   ("role", VStr "admin");
                   ("is_active", VBool true);
                   ("created_at", VDateTime created_at);
                   ("updated_at", VDateTime updated_at) ]);;
        mret ()
      else mret ()
  end.

Definition login (req : LoginRequest.t) : M response :=
  h ← get_db;
  match h with
  | None => raise (HTTPException 503 "Database not configured")
  | Some _ =>
      user ← query_db (λ d,
        find_one [ ("email", VStr (LoginRequest.email req));
                   ("password", VStr (LoginRequest.password req));
                   ("is_active", VBool true) ]
                 (collection d "adminuser"));
      if not_ user then raise (HTTPException 401 "Invalid credentials")
      else
        let user_s := serialize_doc (default [] user) in
        id ← getitem user_s "id";
        mret (RObj [ ("message", JVal (VStr "Login successful"));
                     ("user", JObj
                        [ ("id", id);
                          ("name", dict_get_default "name" VNone user_s);
                          ("email", dict_get_default "email" VNone user_s);
                          ("role",
                           dict_get_default "role" (VStr "admin") user_s) ]) ])
  end.

Definition accept_admission (admission_id : string) : M response :=
  h ← get_db;
  match h with
  | None => raise (HTTPException 503 "Database not configured")
  | Some _ =>
      oid ← ObjectId_or_raise admission_id
               (HTTPException 400 "Invalid admission id");
      admission ← query_db (λ d,
        find_one [("_id", VOid oid)] (collection d "admission"));
      if not_ admission then raise (HTTPException 404 "Admission not found")
      else
        let admission := default [] admission in
        full_name ← getitem admission "full_name";
        email ← getitem admission "email";
        program ← getitem admission "program";
        created_at ← utcnow;
        updated_at ← utcnow;
        let student_data :=
          [ ("full_name", full_name);
            ("email", email);
            ("program", program);
            ("roll_no", VNone);
            ("year", VInt 1);
            ("is_active", VBool true);
            ("created_at", VDateTime created_at);
            ("updated_at", VDateTime updated_at) ] in
        res ← on_db (insert_one "student" student_data);
        now ← utcnow;
        on_db (λ d, ((), update_one "admission" [("_id", VOid oid)]
                           [ ("status", VStr "accepted");
                             ("updated_at", VDateTime now) ] [] false d));;
        mret (RObj [ ("message", JVal (VStr "Admission accepted"));
                     ("student_id", JVal (VStr (str (VOid res)))) ])
  end.

Definition mark_attendance (req : AttendanceRequest.t) : M response :=
  h ← get_db;
  match h with
  | None => raise (HTTPException 503 "Database not configured")
  | Some _ =>
      sid ← ObjectId_or_raise (AttendanceRequest.student_id req)
               (HTTPException 400 "Invalid student id");
      student ← query_db (λ d,
        find_one [("_id", VOid sid)] (collection d "student"));
      if not_ student then raise (HTTPException 404 "Student not found")
      else
        let d := combine (AttendanceRequest.date req) min_time in
        let key :=
          [ ("student_id", VStr (str (VOid sid)));
            ("date", VStr (date_isoformat (dt_date d))) ] in
        updated_at ← utcnow;
        created_at ← utcnow;
        on_db (λ db, ((), update_one "attendance" key
                 [ ("student_id", VStr (str (VOid sid)));
                   ("date", VStr (date_isoformat (dt_date d)));
                   ("status", VStr (AttendanceRequest.status req));
                   ("note",
                    from_option VStr VNone (AttendanceRequest.note req));
                   ("updated_at", VDateTime updated_at) ]
                 [ ("created_at", VDateTime created_at) ] true db));;
        mret (RObj [ ("message", JVal (VStr "Attendance recorded")) ])
  end.

(** The endpoints that go through the helpers of [database]; the module
    is not part of the sources at hand, so its two functions are taken as
    parameters here. *)
Section helpers.
Variable create_document : string → Admission.t → M string.
Variable get_documents : string → option doc → M (list doc).

Definition unavailable (e : exn) : exn := HTTPException 503 (str_exn e).

Definition submit_admission (admission : Admission.t) : M response :=
  new_id ← try_except (create_document "admission" admission) unavailable;
  mret (RObj [ ("message", JVal (VStr "Application submitted"));
               ("id", JVal (VStr new_id)) ]).

(** [if status]: [None] and the empty string are falsy *)
Definition str_truthy (s : option string) : bool :=
  match s with
  | Some s => negb (bool_decide (s = EmptyString))
  | None => false
  end.

Definition list_admissions (status : option string) : M response :=
  let filt :=
    if str_truthy status
    then [("status", from_option VStr VNone status)] else [] in
  docs ← try_except (get_documents "admission" (Some filt)) unavailable;
  mret (RList (map serialize_doc docs)).

Definition list_students : M response :=
  docs ← try_except (get_documents "student" None) unavailable;
  mret (RList (map serialize_doc docs)).

Definition get_attendance (student_id on_date : option string) : M response :=
  let filt := [] in
  let filt :=
    if str_truthy student_id
    then dict_set "student_id" (from_option VStr VNone student_id) filt
    else filt in
  let filt :=
    if str_truthy on_date
    then dict_set "date" (from_option VStr VNone on_date) filt
    else filt in
  docs ← try_except (get_documents "attendance" (Some filt)) unavailable;
  mret (RList (map serialize_doc docs)).

End helpers.

End model.

(** ** [database.py]

    The module is imported by [main.py] but is not among the sources at
    hand; its two helpers are written from the specification. *)

Module database.
Section database.
Context `{PF : Platform}.

(** Modelled from the spec: the text raised when no store is configured
    (missing: [database.py]).  The spec gives no wording and no statement
    below depends on it. *)
Definition store_unavailable : string := "Database not available".

(** Modelled from the spec: [database.create_document] (missing:
    [database.py]), as [main.py] uses it, to submit an application.  In the
    spec's words, submission "persists a new Admission with status=pending
    and returns its generated identifier", with "no side effects beyond the
    single insert"; every record carries [created_at] and [updated_at]; a
    missing connection is a failure.  So the record stored has the fields
    of the application, the status "pending" whatever the application
    carries, and the two time stamps.  How the store encodes the date of
    birth is not described; the document keeps the value of the model. *)
Definition create_document (collection_name : string) (data : Admission.t)
  : M string :=
  h ← get_db;
  match h with
  | None => raise (Exception store_unavailable)
  | Some _ =>
      now ← utcnow;
      let data_dict :=
        dict_update (model_dump data)
          [ ("status", VStr "pending");
            ("created_at", VDateTime now); ("updated_at", VDateTime now) ] in
      res ← on_db (insert_one collection_name data_dict);
      mret (str (VOid res))
  end.

(** Modelled from the spec: [database.get_documents] (missing:
    [database.py]).  Filtered retrieval: the records that match the filter
    exactly on every field it names, all records when there is none, in the
    store's natural order; a missing connection is a failure. *)
Definition get_documents (collection_name : string) (filter_dict : option doc)
  : M (list doc) :=
  h ← get_db;
  match h with
  | None => raise (Exception store_unavailable)
  | Some _ =>
      query_db (λ d, find (default [] filter_dict) (collection d collection_name))
  end.

End database.
End database.

(** ** Vocabulary of the statements *)

Section vocabulary.
Context `{PF : Platform}.

(** The Student document an accept stores: the dict [student_data] of
    [accept_admission] under the identifier the store gives it. *)
Definition student_record (oid : ObjectId) (full_name email program : value)
    (created_at updated_at : datetime) : doc :=
  [ ("_id", VOid oid); ("full_name", full_name); ("email", email);
    ("program", program); ("roll_no", VNone); ("year", VInt 1);
    ("is_active", VBool true); ("created_at", VDateTime created_at);
    ("updated_at", VDateTime updated_at) ].

(** The [$set] of the accept transition. *)
Definition accepted_at (now : datetime) : doc :=
  [ ("status", VStr "accepted"); ("updated_at", VDateTime now) ].

(** The store after a successful accept that started at clock reading
    [t]: the insert into [student], then the update of [admission]. *)
Definition accepted_db (oid : ObjectId) (fn em pr : value) (t : nat)
    (d : Database) : Database :=
  update_one "admission" [("_id", VOid oid)] (accepted_at (utcnow_at (t + 2)))
    [] false
    (insert_one "student"
       (tail (student_record oid fn em pr (utcnow_at t) (utcnow_at (t + 1))))
       d).2.

(** The query for the Attendance records of one (student_id, date) pair,
    as [mark_attendance] writes it. *)
Definition pair_query (student_id on_date : string) : doc :=
  [ ("student_id", VStr student_id); ("date", VStr on_date) ].

(** The [$set] of [mark_attendance]. *)
Definition attendance_set (req : AttendanceRequest.t) (sid : ObjectId)
    (updated_at : datetime) : doc :=
  [ ("student_id", VStr (ObjectId_str sid));
    ("date", VStr (date_isoformat (AttendanceRequest.date req)));
    ("status", VStr (AttendanceRequest.status req));
    ("note", from_option VStr VNone (AttendanceRequest.note req));
    ("updated_at", VDateTime updated_at) ].

(** The store after a successful [mark_attendance] that started at clock
    reading [t]. *)
Definition recorded_db (req : AttendanceRequest.t) (sid : ObjectId) (t : nat)
    (d : Database) : Database :=
  update_one "attendance"
    (pair_query (ObjectId_str sid)
       (date_isoformat (AttendanceRequest.date req)))
    (attendance_set req sid (utcnow_at t))
    [ ("created_at", VDateTime (utcnow_at (t + 1))) ] true d.

(** The Attendance document a first record for a pair stores. *)
Definition attendance_record (oid : ObjectId) (req : AttendanceRequest.t)
    (sid : ObjectId) (updated_at created_at : datetime) : doc :=
  ("_id", VOid oid)
  :: attendance_set req sid updated_at ++ [ ("created_at", VDateTime created_at) ].

(** At most one document per (student_id, date) pair. *)
Definition at_most_one_per_pair (c : list doc) : Prop :=
  ∀ student_id on_date, length (find (pair_query student_id on_date) c) ≤ 1.

Definition attendance_unique (w : World) : Prop :=
  ∀ d, db w = Some d → at_most_one_per_pair (collection d "attendance").

(** A sequence of record operations, one after the other, whatever each
    one answers. *)
Definition record_all (reqs : list AttendanceRequest.t) (w : World) : World :=
  foldl (λ w req, (mark_attendance req w).2) w reqs.

(** The Admission document a submission stores: the fields of the
    application with the status "pending", under the generated identifier
    and with the two time stamps. *)
Definition admission_record (oid : ObjectId) (a : Admission.t)
    (now : datetime) : doc :=
  [ ("_id", VOid oid);
    ("full_name", VStr (Admission.full_name a));
    ("email", VStr (Admission.email a));
    ("phone", VStr (Admission.phone a));
    ("address", VStr (Admission.address a));
    ("program", VStr (Admission.program a));
    ("dob", VDate (Admission.dob a));
    ("previous_education",
       from_option VStr VNone (Admission.previous_education a));
    ("status", VStr "pending");
    ("created_at", VDateTime now);
    ("updated_at", VDateTime now) ].

(** The query of [login], and what it asks of a stored user. *)
Definition login_query (req : LoginRequest.t) : doc :=
  [ ("email", VStr (LoginRequest.email req));
    ("password", VStr (LoginRequest.password req));
    ("is_active", VBool true) ].

Definition credentials_match (req : LoginRequest.t) (u : doc) : Prop :=
  dict_get "email" u = Some (VStr (LoginRequest.email req))
  ∧ dict_get "password" u = Some (VStr (LoginRequest.password req))
  ∧ dict_get "is_active" u = Some (VBool true).

(** The answer of a successful [login] for the user found. *)
Definition login_ok (id name email role : value) : response :=
  RObj [ ("message", JVal (VStr "Login successful"));
         ("user", JObj [ ("id", id); ("name", name); ("email", email);
                         ("role", role) ]) ].

End vocabulary.

(** ** Further vocabulary: serialisation, bootstrap, errors, dates *)

Section more_vocabulary.
Context `{PF : Platform}.

(** A value [serialize_doc] leaves as it is: anything but a date or a
    datetime. *)
Definition json_ready (v : value) : Prop :=
  match v with
  | VDate _ | VDateTime _ => False
  | _ => True
  end.

(** A serialised document: no [_id] field, no date or datetime value. *)
Definition serialized (d : doc) : Prop :=
  Forall (λ kv : string * value, kv.1 ≠ "_id" ∧ json_ready kv.2) d.

(** The [KeyError] of [d[k]] on a missing key, as [getitem] raises it. *)
Definition key_error (k : string) : exn := Exception ("'" +:+ k +:+ "'").

(** The user [ensure_default_admin] stores. *)
Definition default_admin_record (oid : ObjectId)
    (created_at updated_at : datetime) : doc :=
  [ ("_id", VOid oid);
    ("name", VStr "Default Admin");
    ("email", VStr "admin@college.edu");
    ("password", VStr "admin123");
    ("role", VStr "admin");
    ("is_active", VBool true);
    ("created_at", VDateTime created_at);
    ("updated_at", VDateTime updated_at) ].

End more_vocabulary.

(** The dates of [datetime.date]: years 1 to 9999, and no month or day
    beyond two digits. *)
Definition valid_date (d : date) : Prop :=
  1 ≤ year d < 100 * 100 ∧ 1 ≤ month d ≤ 12 ∧ 1 ≤ day d ≤ 31.

(** Reading a string of decimal digits back, to tell two printed numbers
    apart. *)
Definition digit_value (c : ascii) : nat := nat_of_ascii c - 48.

Fixpoint digits_value_from (acc : nat) (s : string) : nat :=
  match s with
  | EmptyString => acc
  | String c s' => digits_value_from (10 * acc + digit_value c) s'
  end.

Definition digits_value : string → nat := digits_value_from 0.

(** ** Running the model on the reference platform *)

Module Demo.
#[local] Existing Instance reference_platform.

Definition empty_db : Database := mkDatabase ∅ 0.

(** The process starts on an empty store and seeds the default admin, who
    gets the first generated identifier. *)
Definition w0 : World := (ensure_default_admin (mkWorld (Some empty_db) 0)).2.

Definition d0 : Database := default empty_db (db w0).

(** A process without a store. *)
Definition w_none : World := mkWorld None 0.

Definition jane : Admission.body :=
  Admission.mk_body "Jane Doe" "jane@example.org" "555-0100" "1 Main St"
    "Engineering" (Date 2005 6 7) None None.

(** The world after Jane's application was submitted; her admission has
    the second generated identifier. *)
Definition w1 : World :=
  (submit_admission database.create_document (Admission.of_body jane) w0).2.

Definition d1 : Database := default empty_db (db w1).

Definition jane_id : string := "000000000000000000000001".

Definition jane_admission : doc := default [] (head (collection d1 "admission")).

(** The world after Jane was accepted; her Student record has the third
    generated identifier. *)
Definition w2 : World := (accept_admission jane_id w1).2.

Definition d2 : Database := default empty_db (db w2).

Definition jane_student : string := "000000000000000000000002".

Definition march_1 : date := Date 2024 3 1.

Definition admin_login : LoginRequest.t :=
  LoginRequest.mk "admin@college.edu" "admin123".

Definition wrong_password : LoginRequest.t :=
  LoginRequest.mk "admin@college.edu" "letmein".

Definition default_admin : doc := default [] (head (collection d0 "adminuser")).

(** An application whose body sets the status itself. *)
Definition eve : Admission.body :=
  Admission.mk_body "Eve Roe" "eve@example.org" "555-0101" "2 Side St"
    "Psychology" (Date 2004 1 2) None (Some accepted).

(** A store failure whose text has [n] characters, and helpers that fail
    with a given text whatever they are asked. *)
Fixpoint long_text (n : nat) : string :=
  match n with
  | 0 => EmptyString
  | S n => String "x" (long_text n)
  end.

Definition failing_create (msg : string) (collection_name : string)
    (data : Admission.t) : M string :=
  raise (Exception msg).

Definition failing_get (msg : string) (collection_name : string)
    (filter_dict : option doc) : M (list doc) :=
  raise (Exception msg).

End Demo.

(** ** Further concrete cases *)

Module Cases.
#[local] Existing Instance reference_platform.

(** A store whose only Admission document has no [program]. *)
Definition incomplete_admission : doc :=
  [ ("_id", VOid "00000000000000000000000a");
    ("full_name", VStr "No Program");
    ("email", VStr "np@example.org") ].

Definition w_incomplete : World :=
  mkWorld
    (Some (mkDatabase {[ "admission" := [incomplete_admission] ]} 1)) 0.

Definition d_incomplete : Database := default Demo.empty_db (db w_incomplete).

(** A process that has a store but has not started yet. *)
Definition w_boot : World := mkWorld (Some Demo.empty_db) 0.

Definition march_2 : date := Date 2024 3 2.

End Cases.

(** * Properties *)

(** ** Dicts *)

Section dict_facts.
Context `{PF : Platform}.

Lemma dict_get_set_eq k v (d : doc) : dict_get k (dict_set k v d) = Some v.
Proof.
  induction d as [|[k' v'] d IH]; simpl.
  - by rewrite decide_True.
  - destruct (decide (k' = k)) as [->|Hne]; simpl.
    + by rewrite decide_True.
    + by rewrite decide_False.
Qed.

Lemma dict_get_set_ne k k' v (d : doc) :
  k ≠ k' → dict_get k' (dict_set k v d) = dict_get k' d.
Proof.
  intros Hne. induction d as [|[k0 v0] d IH]; simpl.
  - by rewrite decide_False.
  - destruct (decide (k0 = k)) as [->|Hk]; simpl.
    + by rewrite !decide_False.
    + destruct (decide (k0 = k')); [done | apply IH].
Qed.

Lemma dict_get_set k k' v (d : doc) :
  dict_get k' (dict_set k v d)
  = if decide (k = k') then Some v else dict_get k' d.
Proof.
  case_decide; [subst; apply dict_get_set_eq | by apply dict_get_set_ne].
Qed.

Lemma dict_get_Some_elem k v (d : doc) : dict_get k d = Some v → (k, v) ∈ d.
Proof.
  induction d as [|[k' v'] d IH]; simpl; [done|].
  case_decide; intros Hg.
  - simplify_eq. apply list_elem_of_here.
  - apply list_elem_of_further. by apply IH.
Qed.

Lemma dict_get_None_keys k (d : doc) : dict_get k d = None ↔ k ∉ d.*1.
Proof.
  induction d as [|[k' v'] d IH]; simpl.
  - split; [intros _ | done]. apply not_elem_of_nil.
  - rewrite not_elem_of_cons. case_decide as Hk.
    + split; [done | by intros [? _]].
    + rewrite IH. split; [by intros ?; split; [congruence|] | by intros [_ ?]].
Qed.

(** A key of the update ends up with the value the update gives it last;
    any other key keeps its value. *)
Lemma dict_get_update_ne k (d u : doc) :
  k ∉ u.*1 → dict_get k (dict_update d u) = dict_get k d.
Proof.
  unfold dict_update. revert d.
  induction u as [|[k' v'] u IH]; intros d Hk; simpl; [done|].
  simpl in Hk. apply not_elem_of_cons in Hk as [Hne Hk].
  rewrite IH by done. by apply dict_get_set_ne.
Qed.

Lemma dict_truthy_get k v (d : doc) : dict_get k d = Some v → dict_truthy d = true.
Proof. by destruct d. Qed.

End dict_facts.

(** ** The store *)

Section store_facts.
Context `{PF : Platform}.

Lemma collection_set_eq name c d :
  collection (set_collection name c d) name = c.
Proof. unfold collection, set_collection. simpl. by rewrite lookup_insert_eq. Qed.

Lemma collection_set_ne name name' c d :
  name ≠ name' → collection (set_collection name c d) name' = collection d name'.
Proof.
  intros. unfold collection, set_collection. simpl.
  by rewrite lookup_insert_ne.
Qed.

Lemma collection_insert_one_eq name data d :
  collection (insert_one name data d).2 name
  = collection d name ++ [("_id", VOid (ObjectId_fresh (generated d))) :: data].
Proof. unfold collection at 1, insert_one. simpl. by rewrite lookup_insert_eq. Qed.

Lemma collection_insert_one_ne name name' data d :
  name ≠ name' → collection (insert_one name data d).2 name' = collection d name'.
Proof.
  intros. unfold collection, insert_one. simpl. by rewrite lookup_insert_ne.
Qed.

(** Whether a document matches a query depends only on the fields the
    query names. *)
Lemma matches_ext filt (d d' : doc) :
  (∀ k, k ∈ filt.*1 → dict_get k d = dict_get k d') →
  matches filt d ↔ matches filt d'.
Proof.
  intros Heq. unfold matches. rewrite !Forall_forall.
  split; intros Hm [k v] Hin; specialize (Hm _ Hin);
    unfold field_matches in *; simpl in *;
    [rewrite <- Heq | rewrite Heq]; try done;
    apply list_elem_of_fmap; by exists (k, v).
Qed.

Lemma matches_nil (d : doc) : matches [] d.
Proof. apply Forall_nil_2. Qed.

Lemma find_nil (c : list doc) : find [] c = c.
Proof.
  unfold find. induction c as [|d c IH]; [done|].
  rewrite filter_cons_True by apply matches_nil. by rewrite IH.
Qed.

(** A query on one field with a value other than [None] selects documents
    that carry the field with this value. *)
Lemma matches_field k v (filt d : doc) :
  v ≠ VNone → (k, v) ∈ filt → matches filt d → dict_get k d = Some v.
Proof.
  intros Hv Hin Hm. unfold matches in Hm. rewrite Forall_forall in Hm.
  specialize (Hm _ Hin). unfold field_matches in Hm. simpl in Hm.
  destruct (dict_get k d); congruence.
Qed.

Lemma find_one_Some filt c (d : doc) :
  find_one filt c = Some d →
  ∃ i, list_find (matches filt) c = Some (i, d) ∧ c !! i = Some d
       ∧ matches filt d ∧ ∀ j x, c !! j = Some x → j < i → ¬ matches filt x.
Proof.
  unfold find_one. destruct (list_find _ c) as [[i x]|] eqn:Hf; [|done].
  simpl. intros [= ->]. exists i. split; [done|].
  by apply list_find_Some in Hf.
Qed.

Lemma find_one_None filt (c : list doc) :
  find_one filt c = None ↔ Forall (λ x, ¬ matches filt x) c.
Proof.
  unfold find_one.
  destruct (list_find (matches filt) c) as [[i x]|] eqn:Hf; simpl.
  - split; [done|]. intros HF.
    apply (list_find_None (matches filt)) in HF. congruence.
  - split; [|done]. intros _. by apply (list_find_None (matches filt)) in Hf.
Qed.

Lemma find_one_elem filt c :
  is_Some (find_one filt c) ↔ ∃ d, d ∈ c ∧ matches filt d.
Proof.
  split.
  - intros [d Hd]. apply find_one_Some in Hd as (i & _ & Hi & Hm & _).
    exists d. split; [by eapply list_elem_of_lookup_2 | done].
  - intros (d & Hin & Hm). destruct (find_one filt c) eqn:Hf; [by eexists|].
    apply find_one_None in Hf. rewrite Forall_forall in Hf.
    by destruct (Hf _ Hin).
Qed.

(** The result of [find_one] on a query that names a field with a value
    is a non-empty dict, so [if not x] only catches [None]. *)
Lemma not_find_one k v filt c :
  v ≠ VNone → (k, v) ∈ filt →
  not_ (find_one filt c) = bool_decide (find_one filt c = None).
Proof.
  intros Hv Hin. destruct (find_one filt c) as [d|] eqn:Hf; [|done].
  apply find_one_Some in Hf as (_ & _ & _ & Hm & _).
  apply (matches_field k v) in Hm; [|done..].
  simpl. by rewrite (dict_truthy_get _ _ _ Hm).
Qed.

(** Replacing a document by one that a query cannot tell apart replaces
    it in the answer too. *)
Lemma find_middle filt (pre post : list doc) (x y : doc) :
  (matches filt x ↔ matches filt y) →
  find filt (pre ++ y :: post)
  = find filt pre ++ (if decide (matches filt x) then [y] else [])
    ++ find filt post.
Proof.
  intros Hxy. unfold find. rewrite filter_app, filter_cons.
  destruct (decide (matches filt x)) as [Hx|Hx].
  - by rewrite decide_True by by apply Hxy.
  - by rewrite decide_False by by rewrite <- Hxy.
Qed.

Lemma filter_none (P : doc → Prop) `{∀ x, Decision (P x)} (c : list doc) :
  Forall (λ x, ¬ P x) c → filter P c = [].
Proof.
  induction 1 as [|x c Hx _ IH]; [done|]. by rewrite filter_cons_False.
Qed.

End store_facts.

(** ** Accepting an admission *)

Section accept_facts.
Context `{PF : Platform}.

Lemma accept_admission_run id w d oid adm fn em pr :
  db w = Some d →
  ObjectId_of_str id = Some oid →
  find_one [("_id", VOid oid)] (collection d "admission") = Some adm →
  dict_get "full_name" adm = Some fn →
  dict_get "email" adm = Some em →
  dict_get "program" adm = Some pr →
  accept_admission id w
  = (Ok (RObj [ ("message", JVal (VStr "Admission accepted"));
                ("student_id",
                 JVal (VStr (ObjectId_str (ObjectId_fresh (generated d))))) ]),
     mkWorld (Some (accepted_db oid fn em pr (clock w) d)) (clock w + 3)).
Proof.
  intros Hdb Hoid Hfind Hfn Hem Hpr.
  unfold accept_admission, mbind, M_bind, get_db. rewrite Hdb.
  unfold ObjectId_or_raise. rewrite Hoid. unfold mret at 1, M_ret at 1.
  unfold query_db. rewrite Hdb, Hfind. simpl.
  rewrite (dict_truthy_get _ _ _ Hfn). simpl.
  unfold getitem. rewrite Hfn, Hem, Hpr. unfold mret, M_ret, on_db. simpl.
  rewrite Hdb. simpl. unfold accepted_db, accepted_at. simpl.
  by replace (clock w + 1) with (S (clock w)) by lia;
     replace (clock w + 2) with (S (S (clock w))) by lia;
     replace (clock w + 3) with (S (S (S (clock w)))) by lia.
Qed.

(** What [update_one] without upsert does to a collection in which the
    query finds a document: the first match gets the fields, in place. *)
Lemma update_one_found name filt set_ d (old : doc) :
  find_one filt (collection d name) = Some old →
  ∃ pre post,
    collection d name = pre ++ old :: post
    ∧ Forall (λ x, ¬ matches filt x) pre
    ∧ ∀ on_insert upsert,
        update_one name filt set_ on_insert upsert d
        = set_collection name (pre ++ dict_update old set_ :: post) d.
Proof.
  intros Hf. apply find_one_Some in Hf as (i & Hlf & Hi & Hm & Hbefore).
  exists (take i (collection d name)), (drop (S i) (collection d name)).
  assert (Hsplit : collection d name
    = take i (collection d name) ++ old :: drop (S i) (collection d name)).
  { by rewrite <- (take_drop_middle _ _ _ Hi) at 1. }
  split; [done|]. split.
  - apply Forall_forall. intros x Hx.
    apply list_elem_of_lookup in Hx as [j Hj].
    pose proof (lookup_lt_Some _ _ _ Hj) as Hlt. rewrite length_take in Hlt.
    rewrite lookup_take_lt in Hj by lia. apply (Hbefore j); [done | lia].
  - intros on_insert upsert. unfold update_one. rewrite Hlf. f_equal.
    rewrite Hsplit at 1.
    pose proof (lookup_lt_Some _ _ _ Hi) as Hlt.
    rewrite insert_app_r_alt by (rewrite length_take; lia).
    rewrite length_take. by replace (i - i `min` _) with 0 by lia.
Qed.

Lemma find_one_app_here filt (pre post : list doc) (x : doc) :
  Forall (λ y, ¬ matches filt y) pre → matches filt x →
  find_one filt (pre ++ x :: post) = Some x.
Proof.
  intros Hpre Hx. unfold find_one.
  apply (list_find_None (matches filt)) in Hpre.
  rewrite list_find_app_r by done. simpl. by rewrite decide_True.
Qed.

Lemma accepted_db_admission oid fn em pr t d (adm : doc) :
  find_one [("_id", VOid oid)] (collection d "admission") = Some adm →
  ∃ pre post,
    collection d "admission" = pre ++ adm :: post
    ∧ Forall (λ x, ¬ matches [("_id", VOid oid)] x) pre
    ∧ collection (accepted_db oid fn em pr t d) "admission"
      = pre ++ dict_update adm (accepted_at (utcnow_at (t + 2))) :: post.
Proof.
  intros Hf. unfold accepted_db.
  set (d' := (insert_one "student" _ d).2).
  assert (Hsame : collection d' "admission" = collection d "admission")
    by by apply collection_insert_one_ne.
  rewrite <- Hsame in Hf.
  destruct (update_one_found "admission" _
              (accepted_at (utcnow_at (t + 2))) d' adm Hf)
    as (pre & post & Hsplit & Hpre & Hupd).
  exists pre, post. rewrite <- Hsame. split; [done|]. split; [done|].
  rewrite Hupd. apply collection_set_eq.
Qed.

Lemma accepted_db_other oid fn em pr t d (adm : doc) name :
  find_one [("_id", VOid oid)] (collection d "admission") = Some adm →
  name ≠ "admission" →
  collection (accepted_db oid fn em pr t d) name
  = collection (insert_one "student"
      (tail (student_record oid fn em pr (utcnow_at t) (utcnow_at (t + 1))))
      d).2 name.
Proof.
  intros Hf Hne. unfold accepted_db.
  set (d' := (insert_one "student" _ d).2).
  assert (Hsame : collection d' "admission" = collection d "admission")
    by by apply collection_insert_one_ne.
  rewrite <- Hsame in Hf.
  destruct (update_one_found "admission" _
              (accepted_at (utcnow_at (t + 2))) d' adm Hf)
    as (pre & post & _ & _ & Hupd).
  rewrite Hupd. by apply collection_set_ne.
Qed.

Lemma accepted_db_student oid fn em pr t d (adm : doc) :
  find_one [("_id", VOid oid)] (collection d "admission") = Some adm →
  collection (accepted_db oid fn em pr t d) "student"
  = collection d "student"
    ++ [("_id", VOid (ObjectId_fresh (generated d)))
        :: tail (student_record oid fn em pr (utcnow_at t) (utcnow_at (t + 1)))].
Proof.
  intros Hf. rewrite (accepted_db_other _ _ _ _ _ _ adm) by done.
  apply collection_insert_one_eq.
Qed.

Lemma accepted_db_generated oid fn em pr t d (adm : doc) :
  find_one [("_id", VOid oid)] (collection d "admission") = Some adm →
  generated (accepted_db oid fn em pr t d) = S (generated d).
Proof.
  intros Hf. unfold accepted_db.
  set (d' := (insert_one "student" _ d).2).
  assert (Hsame : collection d' "admission" = collection d "admission")
    by by apply collection_insert_one_ne.
  rewrite <- Hsame in Hf.
  destruct (update_one_found "admission" _
              (accepted_at (utcnow_at (t + 2))) d' adm Hf)
    as (pre & post & _ & _ & Hupd).
  by rewrite Hupd.
Qed.

(** The accepted admission is still found under its identifier, with the
    applicant's fields as they were. *)
Lemma accepted_db_find oid fn em pr t d (adm : doc) :
  find_one [("_id", VOid oid)] (collection d "admission") = Some adm →
  find_one [("_id", VOid oid)]
    (collection (accepted_db oid fn em pr t d) "admission")
  = Some (dict_update adm (accepted_at (utcnow_at (t + 2)))).
Proof.
  intros Hf.
  destruct (accepted_db_admission oid fn em pr t d adm Hf)
    as (pre & post & _ & Hpre & ->).
  apply find_one_app_here; [done|].
  apply find_one_Some in Hf as (_ & _ & _ & Hm & _).
  revert Hm. apply matches_ext. intros k Hk. simpl in Hk.
  apply list_elem_of_singleton in Hk as ->.
  apply dict_get_update_ne. simpl.
  repeat (apply not_elem_of_cons; split; [done|]). apply not_elem_of_nil.
Qed.

(** C1. For an identifier that resolves to a stored Admission (a document
    of [admission] with the applicant's [full_name], [email] and
    [program]), [accept_admission] succeeds; the [student] collection gains
    exactly one document, with these three fields, [roll_no] unset,
    [year] 1 and [is_active] true; the Admission found gets status
    ["accepted"] and a fresh [updated_at], in place; no other collection
    changes; the answer carries the new Student's identifier. *)
Theorem accept_creates_student_and_marks_accepted id w d oid adm fn em pr :
  db w = Some d →
  ObjectId_of_str id = Some oid →
  find_one [("_id", VOid oid)] (collection d "admission") = Some adm →
  dict_get "full_name" adm = Some fn →
  dict_get "email" adm = Some em →
  dict_get "program" adm = Some pr →
  ∃ d' pre post adm',
    accept_admission id w
    = (Ok (RObj [ ("message", JVal (VStr "Admission accepted"));
                  ("student_id",
                   JVal (VStr (ObjectId_str (ObjectId_fresh (generated d))))) ]),
       mkWorld (Some d') (clock w + 3))
    ∧ collection d' "student"
      = collection d "student"
        ++ [student_record (ObjectId_fresh (generated d)) fn em pr
              (utcnow_at (clock w)) (utcnow_at (clock w + 1))]
    ∧ collection d "admission" = pre ++ adm :: post
    ∧ Forall (λ x, ¬ matches [("_id", VOid oid)] x) pre
    ∧ collection d' "admission" = pre ++ adm' :: post
    ∧ adm' = dict_update adm
               [ ("status", VStr "accepted");
                 ("updated_at", VDateTime (utcnow_at (clock w + 2))) ]
    ∧ dict_get "status" adm' = Some (VStr "accepted")
    ∧ dict_get "updated_at" adm' = Some (VDateTime (utcnow_at (clock w + 2)))
    ∧ ∀ name, name ≠ "student" → name ≠ "admission" →
        collection d' name = collection d name.
Proof.
  intros Hdb Hoid Hfind Hfn Hem Hpr.
  destruct (accepted_db_admission oid fn em pr (clock w) d adm Hfind)
    as (pre & post & Hsplit & Hpre & Hadm).
  exists (accepted_db oid fn em pr (clock w) d), pre, post,
    (dict_update adm (accepted_at (utcnow_at (clock w + 2)))).
  split; [by apply (accept_admission_run id w d oid adm)|].
  split; [by apply (accepted_db_student _ _ _ _ _ _ adm)|].
  do 4 (split; [done|]).
  split; [|split].
  - unfold dict_update, accepted_at. simpl.
    rewrite dict_get_set_ne by done. apply dict_get_set_eq.
  - unfold dict_update, accepted_at. simpl. apply dict_get_set_eq.
  - intros name Hs Ha.
    rewrite (accepted_db_other _ _ _ _ _ _ adm) by done.
    by apply collection_insert_one_ne.
Qed.

(** C5. A second accept of the same admission is not refused: it succeeds
    again and stores a second Student with the same three fields. *)
Theorem accept_twice_creates_two_students id w d oid adm fn em pr :
  db w = Some d →
  ObjectId_of_str id = Some oid →
  find_one [("_id", VOid oid)] (collection d "admission") = Some adm →
  dict_get "full_name" adm = Some fn →
  dict_get "email" adm = Some em →
  dict_get "program" adm = Some pr →
  ∃ r1 w1 d2,
    accept_admission id w = (Ok r1, w1)
    ∧ accept_admission id w1
      = (Ok (RObj [ ("message", JVal (VStr "Admission accepted"));
                    ("student_id",
                     JVal (VStr (ObjectId_str
                                   (ObjectId_fresh (S (generated d)))))) ]),
         mkWorld (Some d2) (clock w + 6))
    ∧ collection d2 "student"
      = collection d "student"
        ++ [ student_record (ObjectId_fresh (generated d)) fn em pr
               (utcnow_at (clock w)) (utcnow_at (clock w + 1));
             student_record (ObjectId_fresh (S (generated d))) fn em pr
               (utcnow_at (clock w + 3)) (utcnow_at (clock w + 4)) ].
Proof.
  intros Hdb Hoid Hfind Hfn Hem Hpr.
  set (d1 := accepted_db oid fn em pr (clock w) d).
  set (adm1 := dict_update adm (accepted_at (utcnow_at (clock w + 2)))).
  assert (Hfind1 : find_one [("_id", VOid oid)] (collection d1 "admission")
                   = Some adm1) by by apply accepted_db_find.
  assert (Hkeep : ∀ k, k ≠ "status" → k ≠ "updated_at" →
                       dict_get k adm1 = dict_get k adm).
  { intros k ??. apply dict_get_update_ne. simpl.
    repeat (apply not_elem_of_cons; split; [done|]). apply not_elem_of_nil. }
  eexists _, (mkWorld (Some d1) (clock w + 3)),
    (accepted_db oid fn em pr (clock w + 3) d1).
  split; [by apply (accept_admission_run id w d oid adm)|].
  split.
  - rewrite (accept_admission_run id _ d1 oid adm1 fn em pr);
      [|done|done|done|by rewrite Hkeep..].
    simpl. unfold d1 at 1. rewrite (accepted_db_generated _ _ _ _ _ _ adm) by done.
    do 2 f_equal. lia.
  - rewrite (accepted_db_student _ _ _ _ _ _ adm1) by done.
    unfold d1 at 1 2. rewrite (accepted_db_student _ _ _ _ _ _ adm) by done.
    rewrite (accepted_db_generated _ _ _ _ _ _ adm) by done.
    rewrite <- app_assoc. simpl.
    by replace (clock w + 3 + 1) with (clock w + 4) by lia.
Qed.

(** C6. With a store configured, an identifier that [ObjectId] refuses is
    answered 400 and a well-formed one that finds no Admission is answered
    404; either way the world, hence every collection, is left as it
    was. *)
Theorem accept_bad_or_unknown_id_leaves_store id w d :
  db w = Some d →
  (ObjectId_of_str id = None →
   accept_admission id w
   = (Raise (HTTPException 400 "Invalid admission id"), w))
  ∧ (∀ oid, ObjectId_of_str id = Some oid →
       find_one [("_id", VOid oid)] (collection d "admission") = None →
       accept_admission id w
       = (Raise (HTTPException 404 "Admission not found"), w)).
Proof.
  intros Hdb. split.
  - intros Hoid. unfold accept_admission, mbind, M_bind, get_db.
    rewrite Hdb. unfold ObjectId_or_raise. by rewrite Hoid.
  - intros oid Hoid Hfind. unfold accept_admission, mbind, M_bind, get_db.
    rewrite Hdb. unfold ObjectId_or_raise. rewrite Hoid.
    unfold mret at 1, M_ret at 1. unfold query_db. by rewrite Hdb, Hfind.
Qed.

End accept_facts.

Section accept_examples.
#[local] Existing Instance reference_platform.

Lemma accept_creates_student_and_marks_accepted_witness :
  ∃ d',
    accept_admission Demo.jane_id Demo.w1
    = (Ok (RObj [ ("message", JVal (VStr "Admission accepted"));
                  ("student_id", JVal (VStr "000000000000000000000002")) ]),
       mkWorld (Some d') 6)
    ∧ collection d' "student"
      = [ student_record "000000000000000000000002" (VStr "Jane Doe")
            (VStr "jane@example.org") (VStr "Engineering")
            (utcnow_at 3) (utcnow_at 4) ]
    ∧ (dict_get "status" <$> collection d' "admission")
      = [Some (VStr "accepted")].
Proof.
  destruct (@accept_creates_student_and_marks_accepted reference_platform
              Demo.jane_id Demo.w1 Demo.d1 Demo.jane_id Demo.jane_admission
              (VStr "Jane Doe") (VStr "jane@example.org") (VStr "Engineering")
              eq_refl eq_refl eq_refl eq_refl eq_refl eq_refl)
    as (d' & pre & post & adm' & Hrun & Hst & Hsplit & _ & Hadm & _ & Hstatus & _).
  exists d'. split; [exact Hrun|]. split; [exact Hst|].
  destruct pre as [|x [|y pre]]; [|by destruct post|done].
  destruct post; [|done]. rewrite Hadm. simpl. by rewrite Hstatus.
Defined.

Lemma accept_twice_creates_two_students_witness :
  ∃ r1 w1 d2,
    accept_admission Demo.jane_id Demo.w1 = (Ok r1, w1)
    ∧ (accept_admission Demo.jane_id w1).1
      = Ok (RObj [ ("message", JVal (VStr "Admission accepted"));
                   ("student_id", JVal (VStr "000000000000000000000003")) ])
    ∧ (accept_admission Demo.jane_id w1).2 = mkWorld (Some d2) 9
    ∧ (dict_get "full_name" <$> collection d2 "student")
      = [Some (VStr "Jane Doe"); Some (VStr "Jane Doe")].
Proof.
  destruct (@accept_twice_creates_two_students reference_platform
              Demo.jane_id Demo.w1 Demo.d1 Demo.jane_id Demo.jane_admission
              (VStr "Jane Doe") (VStr "jane@example.org") (VStr "Engineering")
              eq_refl eq_refl eq_refl eq_refl eq_refl eq_refl)
    as (r1 & w1 & d2 & Hrun1 & Hrun2 & Hst).
  exists r1, w1, d2. split; [exact Hrun1|]. rewrite Hrun2.
  split; [reflexivity|]. split; [reflexivity|]. by rewrite Hst.
Defined.

Lemma accept_bad_or_unknown_id_leaves_store_witness :
  accept_admission "not-an-id" Demo.w1
  = (Raise (HTTPException 400 "Invalid admission id"), Demo.w1)
  ∧ accept_admission "00000000000000000000000f" Demo.w1
    = (Raise (HTTPException 404 "Admission not found"), Demo.w1).
Proof.
  destruct (@accept_bad_or_unknown_id_leaves_store reference_platform
              "not-an-id" Demo.w1 Demo.d1 eq_refl) as [H400 _].
  destruct (@accept_bad_or_unknown_id_leaves_store reference_platform
              "00000000000000000000000f" Demo.w1 Demo.d1 eq_refl) as [_ H404].
  split; [exact (H400 eq_refl) | exact (H404 _ eq_refl eq_refl)].
Defined.

End accept_examples.

(** ** Recording attendance *)

Section attendance_facts.
Context `{PF : Platform}.

Lemma mark_attendance_run req w d sid :
  db w = Some d →
  ObjectId_of_str (AttendanceRequest.student_id req) = Some sid →
  is_Some (find_one [("_id", VOid sid)] (collection d "student")) →
  mark_attendance req w
  = (Ok (RObj [ ("message", JVal (VStr "Attendance recorded")) ]),
     mkWorld (Some (recorded_db req sid (clock w) d)) (clock w + 2)).
Proof.
  intros Hdb Hsid [st Hst].
  unfold mark_attendance, mbind, M_bind, get_db. rewrite Hdb.
  unfold ObjectId_or_raise. rewrite Hsid. unfold mret at 1, M_ret at 1.
  unfold query_db. rewrite Hdb.
  rewrite (not_find_one "_id" (VOid sid)) by (done || apply list_elem_of_here).
  rewrite Hst. simpl. unfold on_db. simpl. rewrite Hdb. simpl.
  unfold recorded_db, pair_query, attendance_set. simpl.
  by replace (clock w + 1) with (S (clock w)) by lia;
     replace (clock w + 2) with (S (S (clock w))) by lia.
Qed.

(** Every run either leaves the world as it was or is a successful
    record. *)
Lemma mark_attendance_cases req w :
  (mark_attendance req w).2 = w
  ∨ ∃ d sid, db w = Some d
      ∧ (mark_attendance req w).2
        = mkWorld (Some (recorded_db req sid (clock w) d)) (clock w + 2).
Proof.
  destruct (db w) as [d|] eqn:Hdb.
  - destruct (ObjectId_of_str (AttendanceRequest.student_id req))
      as [sid|] eqn:Hsid.
    + destruct (find_one [("_id", VOid sid)] (collection d "student"))
        as [st|] eqn:Hst.
      * right. exists d, sid. split; [done|].
        by rewrite (mark_attendance_run req w d sid).
      * left. unfold mark_attendance, mbind, M_bind, get_db. rewrite Hdb.
        unfold ObjectId_or_raise. rewrite Hsid. unfold mret at 1, M_ret at 1.
        unfold query_db. by rewrite Hdb, Hst.
    + left. unfold mark_attendance, mbind, M_bind, get_db. rewrite Hdb.
      unfold ObjectId_or_raise. by rewrite Hsid.
  - left. unfold mark_attendance, mbind, M_bind, get_db. by rewrite Hdb.
Qed.

(** The upsert when the pair has no record yet. *)
Lemma recorded_db_insert req sid t d :
  find_one (pair_query (ObjectId_str sid)
              (date_isoformat (AttendanceRequest.date req)))
    (collection d "attendance") = None →
  recorded_db req sid t d
  = (insert_one "attendance"
       (tail (attendance_record sid req sid (utcnow_at t) (utcnow_at (t + 1))))
       d).2.
Proof.
  intros Hf. unfold recorded_db, update_one. unfold find_one in Hf.
  destruct (list_find _ (collection d "attendance")) as [[??]|]; [done|].
  reflexivity.
Qed.

Lemma find_nil_iff filt (c : list doc) :
  find filt c = [] ↔ find_one filt c = None.
Proof.
  rewrite find_one_None. unfold find. split.
  - induction c as [|x c IH]; [by constructor|].
    rewrite filter_cons. case_decide; [done|]. intros Hc. by constructor; auto.
  - apply filter_none.
Qed.

Lemma find_head filt (c : list doc) x l :
  find filt c = x :: l → find_one filt c = Some x.
Proof.
  unfold find, find_one. induction c as [|y c IH]; [done|].
  rewrite filter_cons. simpl. case_decide.
  - by intros [= -> _].
  - intros Hc. specialize (IH Hc).
    destruct (list_find (matches filt) c) as [[i z]|]; by simplify_eq/=.
Qed.

(** The fields a record writes, and the one it leaves alone. *)
Lemma attendance_set_fields req sid t (old : doc) :
  let new := dict_update old (attendance_set req sid t) in
  dict_get "student_id" new = Some (VStr (ObjectId_str sid))
  ∧ dict_get "date" new
    = Some (VStr (date_isoformat (AttendanceRequest.date req)))
  ∧ dict_get "status" new = Some (VStr (AttendanceRequest.status req))
  ∧ dict_get "note" new
    = Some (from_option VStr VNone (AttendanceRequest.note req))
  ∧ dict_get "updated_at" new = Some (VDateTime t)
  ∧ dict_get "created_at" new = dict_get "created_at" old
  ∧ dict_get "_id" new = dict_get "_id" old.
Proof.
  unfold dict_update, attendance_set. simpl.
  repeat split; by rewrite ?dict_get_set_ne, ?dict_get_set_eq by done.
Qed.

(** A record that updates a document of its pair leaves it in its pair,
    and in no other. *)
Lemma attendance_set_same_pair req sid t (old : doc) s dt :
  matches (pair_query (ObjectId_str sid)
             (date_isoformat (AttendanceRequest.date req))) old →
  matches (pair_query s dt) old
  ↔ matches (pair_query s dt) (dict_update old (attendance_set req sid t)).
Proof.
  intros Hold. apply matches_ext. intros k Hk.
  destruct (attendance_set_fields req sid t old) as (Hs & Hd & _).
  pose proof (matches_field "student_id" (VStr (ObjectId_str sid)) _ _
                ltac:(done) ltac:(apply list_elem_of_here) Hold) as Hs0.
  pose proof (matches_field "date"
                (VStr (date_isoformat (AttendanceRequest.date req))) _ _
                ltac:(done)
                ltac:(apply list_elem_of_further, list_elem_of_here) Hold)
    as Hd0.
  simpl in Hk. apply elem_of_cons in Hk as [->|Hk].
  - by rewrite Hs.
  - apply list_elem_of_singleton in Hk as ->. by rewrite Hd.
Qed.

Lemma attendance_record_pair oid req sid t t' s dt :
  matches (pair_query s dt) (attendance_record oid req sid t t')
  ↔ s = ObjectId_str sid ∧ dt = date_isoformat (AttendanceRequest.date req).
Proof.
  unfold matches, pair_query. rewrite !Forall_cons, Forall_nil.
  unfold field_matches, attendance_record, attendance_set. simpl.
  split; [intros ([= ->] & [= ->] & _) | intros [-> ->]]; done.
Qed.

Lemma recorded_db_other req sid t d name :
  name ≠ "attendance" →
  collection (recorded_db req sid t d) name = collection d name.
Proof.
  intros Hne. unfold recorded_db, update_one.
  destruct (list_find _ (collection d "attendance")) as [[i old]|].
  - by apply collection_set_ne.
  - by apply collection_insert_one_ne.
Qed.

Lemma recorded_db_first req sid t d :
  let q := pair_query (ObjectId_str sid)
             (date_isoformat (AttendanceRequest.date req)) in
  find q (collection d "attendance") = [] →
  collection (recorded_db req sid t d) "attendance"
  = collection d "attendance"
    ++ [attendance_record (ObjectId_fresh (generated d)) req sid
          (utcnow_at t) (utcnow_at (t + 1))].
Proof.
  intros q Hq. apply find_nil_iff in Hq.
  rewrite recorded_db_insert by done. apply collection_insert_one_eq.
Qed.

Lemma recorded_db_again req sid t d (old : doc) :
  let q := pair_query (ObjectId_str sid)
             (date_isoformat (AttendanceRequest.date req)) in
  find_one q (collection d "attendance") = Some old →
  ∃ pre post,
    collection d "attendance" = pre ++ old :: post
    ∧ Forall (λ x, ¬ matches q x) pre
    ∧ collection (recorded_db req sid t d) "attendance"
      = pre ++ dict_update old (attendance_set req sid (utcnow_at t)) :: post.
Proof.
  intros q Hq.
  destruct (update_one_found "attendance" q
              (attendance_set req sid (utcnow_at t)) d old Hq)
    as (pre & post & Hsplit & Hpre & Hupd).
  exists pre, post. split; [done|]. split; [done|].
  unfold recorded_db. fold q. rewrite Hupd. apply collection_set_eq.
Qed.

(** One record keeps the collection at one document per pair at most. *)
Lemma recorded_db_unique req sid t d :
  at_most_one_per_pair (collection d "attendance") →
  at_most_one_per_pair (collection (recorded_db req sid t d) "attendance").
Proof.
  intros Hinv s dt.
  set (q := pair_query (ObjectId_str sid)
              (date_isoformat (AttendanceRequest.date req))).
  destruct (find_one q (collection d "attendance")) as [old|] eqn:Hq.
  - destruct (recorded_db_again req sid t d old Hq)
      as (pre & post & Hsplit & _ & ->).
    specialize (Hinv s dt). rewrite Hsplit in Hinv.
    apply find_one_Some in Hq as (_ & _ & _ & Hold & _).
    rewrite (find_middle _ pre post old old) in Hinv by done.
    rewrite (find_middle _ pre post old)
      by by apply attendance_set_same_pair.
    rewrite !length_app in *. by destruct (decide (matches _ old)).
  - apply find_nil_iff in Hq as Hnone. rewrite recorded_db_first by done.
    specialize (Hinv s dt). unfold find in *.
    rewrite filter_app, length_app, filter_cons, filter_nil.
    case_decide as Hm; [|simpl; lia].
    apply attendance_record_pair in Hm as [-> ->]. fold q.
    rewrite Hnone. simpl. lia.
Qed.

(** C3. The attendance collection holds at most one record per
    (student_id, date) pair after any sequence of record operations, run
    one after the other from a store that has the property, as a store
    with an empty attendance collection does: each operation either
    changes nothing or upserts on exactly that pair. *)
Theorem record_keeps_one_per_pair reqs w :
  ((∀ d, db w = Some d → collection d "attendance" = []) →
   attendance_unique w)
  ∧ (attendance_unique w → attendance_unique (record_all reqs w)).
Proof.
  split.
  - intros Hempty d Hdb s dt. rewrite (Hempty d Hdb). simpl. lia.
  - revert w. induction reqs as [|req reqs IH]; intros w Hw; [done|].
    simpl. apply IH.
    destruct (mark_attendance_cases req w) as [-> | (d & sid & Hdb & ->)];
      [done|].
    intros d' [= <-]. apply recorded_db_unique. by apply Hw.
Qed.

Lemma recorded_db_first_find req sid t d :
  let q := pair_query (ObjectId_str sid)
             (date_isoformat (AttendanceRequest.date req)) in
  find q (collection d "attendance") = [] →
  find q (collection (recorded_db req sid t d) "attendance")
  = [attendance_record (ObjectId_fresh (generated d)) req sid
       (utcnow_at t) (utcnow_at (t + 1))].
Proof.
  intros q Hq. rewrite recorded_db_first by done.
  unfold find in *. rewrite filter_app, Hq, filter_cons, filter_nil.
  by rewrite decide_True by by apply attendance_record_pair.
Qed.

Lemma recorded_db_again_find req sid t d (old : doc) :
  let q := pair_query (ObjectId_str sid)
             (date_isoformat (AttendanceRequest.date req)) in
  find q (collection d "attendance") = [old] →
  find q (collection (recorded_db req sid t d) "attendance")
  = [dict_update old (attendance_set req sid (utcnow_at t))].
Proof.
  intros q Hq. pose proof (find_head _ _ _ _ Hq) as Hone.
  destruct (recorded_db_again req sid t d old Hone)
    as (pre & post & Hsplit & Hpre & ->).
  apply find_one_Some in Hone as (_ & _ & _ & Hold & _).
  rewrite Hsplit, (find_middle _ pre post old old) in Hq by done.
  rewrite (find_middle _ pre post old) by by apply attendance_set_same_pair.
  rewrite decide_True in * by done.
  unfold find in *. rewrite (filter_none _ pre) in * by done.
  simpl in Hq. injection Hq as Hpost. simpl. by rewrite Hpost.
Qed.

(** C2. For an existing Student and a (student_id, date) pair that has
    at most one record (the invariant of the collection), recording
    "present" twice and then "absent" leaves exactly one Attendance record
    for the pair: its status is "absent"; its [created_at] is the one set
    when the record was first written, which is the first call (its second
    clock reading) when the pair had no record, and is not touched by the
    later calls; its [updated_at] is the reading of the last call; after
    each of the three calls the stored note is the note of that call. *)
Theorem record_thrice_leaves_one_record w d sid s dt n1 n2 n3 :
  db w = Some d →
  ObjectId_of_str s = Some sid →
  is_Some (find_one [("_id", VOid sid)] (collection d "student")) →
  length (find (pair_query (ObjectId_str sid) (date_isoformat dt))
            (collection d "attendance")) ≤ 1 →
  let q := pair_query (ObjectId_str sid) (date_isoformat dt) in
  let ok := Ok (RObj [ ("message", JVal (VStr "Attendance recorded")) ]) in
  let r1 := mark_attendance (AttendanceRequest.mk s dt "present" n1) w in
  let r2 := mark_attendance (AttendanceRequest.mk s dt "present" n2) r1.2 in
  let r3 := mark_attendance (AttendanceRequest.mk s dt "absent" n3) r2.2 in
  ∃ d1 d2 d3 rec1 rec2 rec3,
    r1 = (ok, mkWorld (Some d1) (clock w + 2))
    ∧ r2 = (ok, mkWorld (Some d2) (clock w + 4))
    ∧ r3 = (ok, mkWorld (Some d3) (clock w + 6))
    ∧ find q (collection d1 "attendance") = [rec1]
    ∧ find q (collection d2 "attendance") = [rec2]
    ∧ find q (collection d3 "attendance") = [rec3]
    ∧ dict_get "status" rec3 = Some (VStr "absent")
    ∧ (find q (collection d "attendance") = [] →
       dict_get "created_at" rec1
       = Some (VDateTime (utcnow_at (clock w + 1))))
    ∧ (∀ old, find q (collection d "attendance") = [old] →
       dict_get "created_at" rec1 = dict_get "created_at" old)
    ∧ dict_get "created_at" rec2 = dict_get "created_at" rec1
    ∧ dict_get "created_at" rec3 = dict_get "created_at" rec1
    ∧ dict_get "updated_at" rec3 = Some (VDateTime (utcnow_at (clock w + 4)))
    ∧ dict_get "note" rec1 = Some (from_option VStr VNone n1)
    ∧ dict_get "note" rec2 = Some (from_option VStr VNone n2)
    ∧ dict_get "note" rec3 = Some (from_option VStr VNone n3).
Proof.
  intros Hdb Hsid Hst Hone q ok r1 r2 r3.
  set (req1 := AttendanceRequest.mk s dt "present" n1) in *.
  set (req2 := AttendanceRequest.mk s dt "present" n2) in *.
  set (req3 := AttendanceRequest.mk s dt "absent" n3) in *.
  set (d1 := recorded_db req1 sid (clock w) d).
  set (d2 := recorded_db req2 sid (clock w + 2) d1).
  set (d3 := recorded_db req3 sid (clock w + 4) d2).
  assert (Hr1 : r1 = (ok, mkWorld (Some d1) (clock w + 2)))
    by by apply mark_attendance_run.
  assert (Hst1 : collection d1 "student" = collection d "student")
    by by apply recorded_db_other.
  assert (Hr2 : r2 = (ok, mkWorld (Some d2) (clock w + 4))).
  { unfold r2. rewrite Hr1. simpl.
    rewrite (mark_attendance_run req2 _ d1 sid); [|done|done|by rewrite Hst1].
    simpl. do 2 f_equal. lia. }
  assert (Hst2 : collection d2 "student" = collection d "student")
    by (unfold d2; by rewrite recorded_db_other).
  assert (Hr3 : r3 = (ok, mkWorld (Some d3) (clock w + 6))).
  { unfold r3. rewrite Hr2. simpl.
    rewrite (mark_attendance_run req3 _ d2 sid); [|done|done|by rewrite Hst2].
    simpl. do 2 f_equal. lia. }
  assert (∃ rec1, find q (collection d1 "attendance") = [rec1]
            ∧ dict_get "note" rec1 = Some (from_option VStr VNone n1)
            ∧ (find q (collection d "attendance") = [] →
               dict_get "created_at" rec1
               = Some (VDateTime (utcnow_at (clock w + 1))))
            ∧ (∀ old, find q (collection d "attendance") = [old] →
               dict_get "created_at" rec1 = dict_get "created_at" old))
    as (rec1 & Hf1 & Hn1 & Hfresh & Hkept).
  { revert Hone. fold q.
    destruct (find q (collection d "attendance")) as [|old [|??]] eqn:Hq;
      intros Hone; [| |simpl in Hone; lia].
    - eexists. split; [by apply (recorded_db_first_find req1)|].
      by repeat split.
    - eexists. split; [by apply (recorded_db_again_find req1)|].
      destruct (attendance_set_fields req1 sid (utcnow_at (clock w)) old)
        as (_ & _ & _ & Hn & _ & Hc & _).
      split; [done|]. split; [done|]. by intros ? [= <-]. }
  set (rec2 := dict_update rec1 (attendance_set req2 sid (utcnow_at (clock w + 2)))).
  set (rec3 := dict_update rec2 (attendance_set req3 sid (utcnow_at (clock w + 4)))).
  assert (Hf2 : find q (collection d2 "attendance") = [rec2])
    by by apply (recorded_db_again_find req2).
  assert (Hf3 : find q (collection d3 "attendance") = [rec3])
    by by apply (recorded_db_again_find req3).
  destruct (attendance_set_fields req2 sid (utcnow_at (clock w + 2)) rec1)
    as (_ & _ & _ & Hn2 & _ & Hc2 & _).
  destruct (attendance_set_fields req3 sid (utcnow_at (clock w + 4)) rec2)
    as (_ & _ & Hs3 & Hn3 & Hu3 & Hc3 & _).
  exists d1, d2, d3, rec1, rec2, rec3.
  do 6 (split; [done|]). split; [done|]. split; [done|]. split; [done|].
  split; [done|]. split; [exact (eq_trans Hc3 Hc2)|].
  by do 3 (split; [done|]).
Qed.

(** [mark_attendance] takes the status as any string: with an existing
    Student the request is answered as recorded and the stored record
    carries the status as sent. *)
Lemma record_stores_any_status req w d sid :
  db w = Some d →
  ObjectId_of_str (AttendanceRequest.student_id req) = Some sid →
  is_Some (find_one [("_id", VOid sid)] (collection d "student")) →
  ∃ d' i rec,
    mark_attendance req w
    = (Ok (RObj [ ("message", JVal (VStr "Attendance recorded")) ]),
       mkWorld (Some d') (clock w + 2))
    ∧ collection d' "attendance" !! i = Some rec
    ∧ dict_get "student_id" rec = Some (VStr (ObjectId_str sid))
    ∧ dict_get "date" rec
      = Some (VStr (date_isoformat (AttendanceRequest.date req)))
    ∧ dict_get "status" rec = Some (VStr (AttendanceRequest.status req)).
Proof.
  intros Hdb Hsid Hst.
  set (q := pair_query (ObjectId_str sid)
              (date_isoformat (AttendanceRequest.date req))).
  exists (recorded_db req sid (clock w) d).
  destruct (find_one q (collection d "attendance")) as [old|] eqn:Hq.
  - destruct (recorded_db_again req sid (clock w) d old Hq)
      as (pre & post & _ & _ & Hnew).
    destruct (attendance_set_fields req sid (utcnow_at (clock w)) old)
      as (Hs & Hd & Hstatus & _).
    exists (length pre), (dict_update old (attendance_set req sid (utcnow_at (clock w)))).
    split; [by apply mark_attendance_run|]. split; [|done].
    rewrite Hnew. by rewrite list_lookup_middle.
  - apply find_nil_iff in Hq.
    exists (length (collection d "attendance")),
      (attendance_record (ObjectId_fresh (generated d)) req sid
         (utcnow_at (clock w)) (utcnow_at (clock w + 1))).
    split; [by apply mark_attendance_run|]. split; [|done].
    rewrite recorded_db_first by done. by rewrite list_lookup_middle.
Qed.

End attendance_facts.

Section attendance_examples.
#[local] Existing Instance reference_platform.

Lemma record_thrice_leaves_one_record_witness :
  let q := pair_query Demo.jane_student "2024-03-01" in
  let r1 := mark_attendance
    (AttendanceRequest.mk Demo.jane_student Demo.march_1 "present" None)
    Demo.w2 in
  let r2 := mark_attendance
    (AttendanceRequest.mk Demo.jane_student Demo.march_1 "present" None)
    r1.2 in
  let r3 := mark_attendance
    (AttendanceRequest.mk Demo.jane_student Demo.march_1 "absent" (Some "sick"))
    r2.2 in
  ∃ d3 rec3,
    r3.2 = mkWorld (Some d3) 12
    ∧ find q (collection d3 "attendance") = [rec3]
    ∧ dict_get "status" rec3 = Some (VStr "absent")
    ∧ dict_get "note" rec3 = Some (VStr "sick")
    ∧ dict_get "created_at" rec3 = Some (VDateTime (utcnow_at 7))
    ∧ dict_get "updated_at" rec3 = Some (VDateTime (utcnow_at 10)).
Proof.
  intros q r1 r2 r3.
  destruct (@record_thrice_leaves_one_record reference_platform
              Demo.w2 Demo.d2 Demo.jane_student Demo.jane_student
              Demo.march_1 None None (Some "sick"))
    as (d1 & d2 & d3 & rec1 & rec2 & rec3 & H1 & H2 & H3 & Hf1 & Hf2 & Hf3
        & Hs & Hc1 & _ & _ & Hc3 & Hu & Hn1 & Hn2 & Hn3);
    [reflexivity | reflexivity | by eexists | vm_compute; lia |].
  exists d3, rec3. unfold r3, r2, r1. rewrite H3.
  split; [reflexivity|]. split; [exact Hf3|]. split; [exact Hs|].
  split; [exact Hn3|]. split; [by rewrite Hc3, (Hc1 eq_refl) | exact Hu].
Defined.

Lemma record_keeps_one_per_pair_witness :
  attendance_unique
    (record_all
       [ AttendanceRequest.mk Demo.jane_student Demo.march_1 "present" None;
         AttendanceRequest.mk "nobody" Demo.march_1 "present" None;
         AttendanceRequest.mk Demo.jane_student Demo.march_1 "late" None;
         AttendanceRequest.mk Demo.jane_student (Date 2024 3 2) "present" None ]
       Demo.w2).
Proof.
  destruct (@record_keeps_one_per_pair reference_platform
              [ AttendanceRequest.mk Demo.jane_student Demo.march_1 "present" None;
                AttendanceRequest.mk "nobody" Demo.march_1 "present" None;
                AttendanceRequest.mk Demo.jane_student Demo.march_1 "late" None;
                AttendanceRequest.mk Demo.jane_student (Date 2024 3 2)
                  "present" None ]
              Demo.w2) as [Hempty Hkeep].
  apply Hkeep, Hempty. intros d [= <-]. reflexivity.
Defined.

(** C9 (the code departs from it). A record with status "holiday" for an
    existing Student is answered as recorded, and the stored Attendance
    record carries the status "holiday", which is none of "present",
    "absent", "late". *)
Theorem record_accepts_status_outside_the_schema :
  let r := mark_attendance
    (AttendanceRequest.mk Demo.jane_student Demo.march_1 "holiday" None)
    Demo.w2 in
  r.1 = Ok (RObj [ ("message", JVal (VStr "Attendance recorded")) ])
  ∧ (dict_get "status" <$> from_option (λ d, collection d "attendance") [] (db r.2))
    = [ Some (VStr "holiday") ].
Proof. by vm_compute. Qed.

End attendance_examples.

(** ** Serialisation and login *)

Section login_facts.
Context `{PF : Platform}.

Lemma serialize_field_keeps k out kv :
  is_Some (dict_get k out) → is_Some (dict_get k (serialize_field out kv)).
Proof.
  intros Hk. unfold serialize_field.
  case_decide; rewrite dict_get_set; by case_decide.
Qed.

Lemma serialize_fold_has_id (d out : doc) :
  is_Some (dict_get "id" out) ∨ is_Some (dict_get "_id" d) →
  is_Some (dict_get "id" (fold_left serialize_field d out)).
Proof.
  revert out. induction d as [|[k v] d IH]; intros out Hid; simpl in *.
  - destruct Hid as [?|[? ?]]; done.
  - apply IH. destruct Hid as [Hout|Hd].
    + left. by apply serialize_field_keeps.
    + destruct (decide (k = "_id")) as [->|Hk]; [left | by right].
      unfold serialize_field. simpl. by rewrite dict_get_set_eq.
Qed.

Lemma serialize_doc_has_id (d : doc) :
  is_Some (dict_get "_id" d) → is_Some (dict_get "id" (serialize_doc d)).
Proof.
  intros Hd. unfold serialize_doc. destruct Hd as [v Hv].
  rewrite (dict_truthy_get _ _ _ Hv). apply serialize_fold_has_id. by right.
Qed.

(** On a dict (no key twice) a field other than [_id] and [id] is
    serialised under its own name. *)
Lemma serialize_fold_get k (d out : doc) :
  NoDup d.*1 → k ≠ "id" → k ≠ "_id" →
  dict_get k (fold_left serialize_field d out)
  = match dict_get k d with
    | Some v => Some (serialize_value v)
    | None => dict_get k out
    end.
Proof.
  intros Hnd Hid H_id. revert out.
  induction d as [|[k' v'] d IH]; intros out; simpl in *; [done|].
  apply NoDup_cons in Hnd as [Hk' Hnd]. rewrite IH by done.
  destruct (decide (k' = k)) as [->|Hne].
  - apply dict_get_None_keys in Hk' as ->.
    unfold serialize_field. simpl. rewrite decide_False by done.
    apply dict_get_set_eq.
  - destruct (dict_get k d); [done|].
    unfold serialize_field. simpl.
    case_decide; by rewrite dict_get_set_ne.
Qed.

(** On a dict without an [id] field, [id] is the printed [_id]. *)
Lemma serialize_fold_get_id (d out : doc) :
  NoDup d.*1 → "id" ∉ d.*1 →
  dict_get "id" (fold_left serialize_field d out)
  = match dict_get "_id" d with
    | Some v => Some (VStr (str v))
    | None => dict_get "id" out
    end.
Proof.
  intros Hnd Hid. revert out.
  induction d as [|[k' v'] d IH]; intros out; simpl in *; [done|].
  apply NoDup_cons in Hnd as [Hk' Hnd].
  apply not_elem_of_cons in Hid as [Hne Hid]. rewrite IH by done.
  destruct (decide (k' = "_id")) as [->|H_id].
  - apply dict_get_None_keys in Hk' as ->.
    unfold serialize_field. simpl. apply dict_get_set_eq.
  - destruct (dict_get "_id" d); [done|].
    unfold serialize_field. simpl. rewrite decide_False by done.
    by rewrite dict_get_set_ne.
Qed.

Lemma serialize_doc_get k (d : doc) :
  NoDup d.*1 → k ≠ "id" → k ≠ "_id" →
  dict_get k (serialize_doc d) = serialize_value <$> dict_get k d.
Proof.
  intros. unfold serialize_doc. destruct (dict_truthy d) eqn:Ht.
  - rewrite serialize_fold_get by done. by destruct (dict_get k d).
  - by destruct d.
Qed.

Lemma serialize_doc_get_id (d : doc) v :
  NoDup d.*1 → "id" ∉ d.*1 → dict_get "_id" d = Some v →
  dict_get "id" (serialize_doc d) = Some (VStr (str v)).
Proof.
  intros ?? Hv. unfold serialize_doc. rewrite (dict_truthy_get _ _ _ Hv).
  rewrite serialize_fold_get_id by done. by rewrite Hv.
Qed.

Lemma matches_login_query req (u : doc) :
  matches (login_query req) u ↔ credentials_match req u.
Proof.
  unfold matches, login_query, credentials_match.
  rewrite !Forall_cons, Forall_nil. unfold field_matches. simpl.
  destruct (dict_get "email" u), (dict_get "password" u),
    (dict_get "is_active" u);
    (split; [intros (? & ? & ? & _) | intros (? & ? & ?)]);
    by simplify_eq.
Qed.

(** What [login] does on a configured store. *)
Lemma login_run req w d :
  db w = Some d →
  login req w
  = match find_one (login_query req) (collection d "adminuser") with
    | None => (Raise (HTTPException 401 "Invalid credentials"), w)
    | Some u =>
        let user_s := serialize_doc u in
        match dict_get "id" user_s with
        | Some id =>
            (Ok (login_ok id (dict_get_default "name" VNone user_s)
                   (dict_get_default "email" VNone user_s)
                   (dict_get_default "role" (VStr "admin") user_s)), w)
        | None => (Raise (Exception "'id'"), w)
        end
    end.
Proof.
  intros Hdb. unfold login, mbind, M_bind, get_db. rewrite Hdb.
  unfold query_db. rewrite Hdb. fold (login_query req).
  rewrite (not_find_one "is_active" (VBool true))
    by (done || apply list_elem_of_further, list_elem_of_further,
                  list_elem_of_here).
  destruct (find_one _ _) as [u|]; [|done]. simpl.
  unfold getitem. by destruct (dict_get "id" (serialize_doc u)).
Qed.

(** C7. On a configured store whose users all carry their [_id], [login]
    succeeds exactly when some stored user has the email and the password
    of the request and [is_active] true; it then answers with the [id],
    [name], [email] and [role] of the first such user; every other request
    gets one and the same answer, 401 "Invalid credentials", so that two
    failing requests have equal runs; no login changes the world. *)
Theorem login_succeeds_iff_active_match req w d :
  db w = Some d →
  Forall (λ u, is_Some (dict_get "_id" u)) (collection d "adminuser") →
  ((∃ r, login req w = (Ok r, w))
   ↔ ∃ u, u ∈ collection d "adminuser" ∧ credentials_match req u)
  ∧ ((¬ ∃ u, u ∈ collection d "adminuser" ∧ credentials_match req u) →
     login req w = (Raise (HTTPException 401 "Invalid credentials"), w))
  ∧ (∀ req',
       (¬ ∃ u, u ∈ collection d "adminuser" ∧ credentials_match req u) →
       (¬ ∃ u, u ∈ collection d "adminuser" ∧ credentials_match req' u) →
       login req w = login req' w)
  ∧ (∀ u id, find_one (login_query req) (collection d "adminuser") = Some u →
       NoDup u.*1 → "id" ∉ u.*1 → dict_get "_id" u = Some id →
       credentials_match req u
       ∧ login req w
         = (Ok (login_ok (VStr (str id))
                  (from_option serialize_value VNone (dict_get "name" u))
                  (VStr (LoginRequest.email req))
                  (from_option serialize_value (VStr "admin")
                     (dict_get "role" u))), w)).
Proof.
  intros Hdb Hids.
  assert (Hfound : ∀ req,
            is_Some (find_one (login_query req) (collection d "adminuser"))
            ↔ ∃ u, u ∈ collection d "adminuser" ∧ credentials_match req u).
  { intros r. rewrite find_one_elem. by setoid_rewrite matches_login_query. }
  assert (Hfail : ∀ req,
            (¬ ∃ u, u ∈ collection d "adminuser" ∧ credentials_match req u) →
            login req w = (Raise (HTTPException 401 "Invalid credentials"), w)).
  { intros r Hnone. rewrite (login_run r w d Hdb).
    destruct (find_one _ _) as [u|] eqn:Hu; [|done].
    destruct Hnone. apply Hfound. by eexists. }
  split; [|split; [by apply Hfail|split]];
    [| intros req' H1 H2; by rewrite !Hfail |];
    rewrite (login_run req w d Hdb); specialize (Hfound req).
  - rewrite <- Hfound.
    destruct (find_one _ _) as [u|] eqn:Hu; simpl.
    + split; [by eexists|]. intros _.
      apply find_one_Some in Hu as (i & _ & Hi & _).
      rewrite Forall_forall in Hids.
      destruct (serialize_doc_has_id u) as [id ->]; [|by eexists].
      apply Hids. by eapply list_elem_of_lookup_2.
    + split; [by intros [? ?] | by intros [? ?]].
  - intros u id Hu Hnd Hnoid Hid. rewrite Hu. simpl.
    apply find_one_Some in Hu as (_ & _ & _ & Hc & _).
    apply matches_login_query in Hc.
    split; [done|]. destruct Hc as (Hemail & _ & _).
    rewrite (serialize_doc_get_id u id) by done.
    unfold dict_get_default. rewrite !serialize_doc_get by done.
    rewrite Hemail. simpl. do 3 f_equal.
    + by destruct (dict_get "name" u).
    + by destruct (dict_get "role" u).
Qed.

End login_facts.

Section login_examples.
#[local] Existing Instance reference_platform.

Lemma login_succeeds_iff_active_match_witness :
  login Demo.admin_login Demo.w0
  = (Ok (login_ok (VStr "000000000000000000000000") (VStr "Default Admin")
           (VStr "admin@college.edu") (VStr "admin")), Demo.w0)
  ∧ login Demo.wrong_password Demo.w0
    = (Raise (HTTPException 401 "Invalid credentials"), Demo.w0).
Proof.
  assert (Hids : Forall (λ u : doc, is_Some (dict_get "_id" u))
                   (collection Demo.d0 "adminuser"))
    by (repeat constructor; by eexists).
  destruct (@login_succeeds_iff_active_match reference_platform
              Demo.admin_login Demo.w0 Demo.d0 eq_refl Hids)
    as (_ & _ & _ & Hok).
  destruct (@login_succeeds_iff_active_match reference_platform
              Demo.wrong_password Demo.w0 Demo.d0 eq_refl Hids)
    as (_ & Hno & _).
  split.
  - refine (proj2 (Hok Demo.default_admin (VOid "000000000000000000000000")
                     eq_refl _ _ eq_refl)).
    + by apply (bool_decide_unpack _).
    + by apply (bool_decide_unpack _).
  - apply Hno. intros (u & Hu & _ & Hpw & _).
    apply list_elem_of_singleton in Hu as ->. discriminate Hpw.
Defined.

End login_examples.

(** ** Submitting and listing, through the helpers of [database] *)

Section helper_facts.
Context `{PF : Platform}.

Lemma submit_admission_run a w d :
  db w = Some d →
  submit_admission database.create_document a w
  = (Ok (RObj [ ("message", JVal (VStr "Application submitted"));
                ("id", JVal (VStr (ObjectId_str (ObjectId_fresh (generated d))))) ]),
     mkWorld
       (Some (insert_one "admission"
                (tail (admission_record (ObjectId_fresh (generated d)) a
                         (utcnow_at (clock w)))) d).2)
       (clock w + 1)).
Proof.
  intros Hdb.
  unfold submit_admission, try_except, database.create_document,
    mbind, M_bind, get_db, on_db, utcnow, mret, M_ret.
  rewrite Hdb. simpl. rewrite Hdb. simpl.
  by replace (clock w + 1) with (S (clock w)) by lia.
Qed.

(** C4. For every valid application, whatever status it carries, on a
    configured store [submit_admission] appends one Admission document to
    [admission], with the applicant's fields and the status "pending",
    leaves every other collection alone and answers with the generated
    identifier, which is the [_id] of the new document. *)
Theorem submit_persists_pending_admission a w d :
  db w = Some d →
  ∃ d' rec,
    submit_admission database.create_document a w
    = (Ok (RObj [ ("message", JVal (VStr "Application submitted"));
                  ("id", JVal (VStr (ObjectId_str
                                       (ObjectId_fresh (generated d))))) ]),
       mkWorld (Some d') (clock w + 1))
    ∧ collection d' "admission" = collection d "admission" ++ [rec]
    ∧ rec = admission_record (ObjectId_fresh (generated d)) a
              (utcnow_at (clock w))
    ∧ dict_get "_id" rec = Some (VOid (ObjectId_fresh (generated d)))
    ∧ dict_get "status" rec = Some (VStr "pending")
    ∧ dict_get "full_name" rec = Some (VStr (Admission.full_name a))
    ∧ dict_get "email" rec = Some (VStr (Admission.email a))
    ∧ dict_get "program" rec = Some (VStr (Admission.program a))
    ∧ ∀ name, name ≠ "admission" → collection d' name = collection d name.
Proof.
  intros Hdb.
  set (rec := admission_record (ObjectId_fresh (generated d)) a
                (utcnow_at (clock w))).
  exists (insert_one "admission" (tail rec) d).2, rec.
  split; [by apply submit_admission_run|].
  split; [apply collection_insert_one_eq|].
  do 6 (split; [done|]).
  intros name Hne. by apply collection_insert_one_ne.
Qed.

(** C8, as the code has it. When a helper of [database] raises [e], the
    four endpoints that call one answer 503 with [str(e)], which for a
    plain exception is its whole text; when the store handle is missing,
    [login], [accept_admission] and [mark_attendance] answer 503 with the
    fixed text "Database not configured". *)
Theorem store_failure_text_is_returned_as_is
    (create_document : string → Admission.t → M string)
    (get_documents : string → option doc → M (list doc)) w w' e :
  (∀ a, create_document "admission" a w = (Raise e, w') →
        submit_admission create_document a w
        = (Raise (HTTPException 503 (str_exn e)), w'))
  ∧ ((∀ name filt, get_documents name filt w = (Raise e, w')) →
     (∀ status, list_admissions get_documents status w
                = (Raise (HTTPException 503 (str_exn e)), w'))
     ∧ list_students get_documents w
       = (Raise (HTTPException 503 (str_exn e)), w')
     ∧ (∀ student_id on_date,
          get_attendance get_documents student_id on_date w
          = (Raise (HTTPException 503 (str_exn e)), w')))
  ∧ (∀ msg, str_exn (Exception msg) = msg)
  ∧ (db w = None →
     (∀ req, login req w
             = (Raise (HTTPException 503 "Database not configured"), w))
     ∧ (∀ id, accept_admission id w
              = (Raise (HTTPException 503 "Database not configured"), w))
     ∧ (∀ req, mark_attendance req w
               = (Raise (HTTPException 503 "Database not configured"), w))).
Proof.
  split; [|split; [|split; [done|]]].
  - intros a Hraise.
    unfold submit_admission, mbind, M_bind, try_except. by rewrite Hraise.
  - intros Hraise. repeat split; intros;
      unfold list_admissions, list_students, get_attendance, mbind, M_bind,
        try_except; by rewrite Hraise.
  - intros Hdb. repeat split; intros;
      unfold login, accept_admission, mark_attendance, mbind, M_bind, get_db;
      by rewrite Hdb.
Qed.

Lemma get_documents_run name filt w d :
  db w = Some d →
  database.get_documents name filt w
  = (Ok (find (default [] filt) (collection d name)), w).
Proof.
  intros Hdb. unfold database.get_documents, mbind, M_bind, get_db, query_db.
  rewrite Hdb. simpl. by rewrite Hdb.
Qed.

(** C10. An empty string as [status], [student_id] or [on_date] is
    treated as a parameter that was not given: the query for that field is
    dropped, and with no field left the whole collection is returned. *)
Theorem empty_string_filter_is_no_filter w d student_id on_date :
  db w = Some d →
  list_admissions database.get_documents (Some EmptyString) w
  = list_admissions database.get_documents None w
  ∧ list_admissions database.get_documents None w
    = (Ok (RList (map serialize_doc (collection d "admission"))), w)
  ∧ get_attendance database.get_documents (Some EmptyString) on_date w
    = get_attendance database.get_documents None on_date w
  ∧ get_attendance database.get_documents student_id (Some EmptyString) w
    = get_attendance database.get_documents student_id None w
  ∧ get_attendance database.get_documents (Some EmptyString)
      (Some EmptyString) w
    = (Ok (RList (map serialize_doc (collection d "attendance"))), w).
Proof.
  intros Hdb. repeat split; try done.
  - unfold list_admissions, mbind, M_bind, try_except. simpl.
    rewrite (get_documents_run _ _ w d Hdb). simpl. by rewrite find_nil.
  - unfold get_attendance, mbind, M_bind, try_except. simpl.
    rewrite (get_documents_run _ _ w d Hdb). simpl. by rewrite find_nil.
Qed.

End helper_facts.

Section helper_examples.
#[local] Existing Instance reference_platform.

Lemma submit_persists_pending_admission_witness :
  Admission.status (Admission.of_body Demo.eve) = accepted
  ∧ ∃ d' rec,
      submit_admission database.create_document (Admission.of_body Demo.eve)
        Demo.w0
      = (Ok (RObj [ ("message", JVal (VStr "Application submitted"));
                    ("id", JVal (VStr "000000000000000000000001")) ]),
         mkWorld (Some d') 3)
      ∧ collection d' "admission" = [rec]
      ∧ dict_get "status" rec = Some (VStr "pending")
      ∧ dict_get "full_name" rec = Some (VStr "Eve Roe").
Proof.
  split; [reflexivity|].
  destruct (@submit_persists_pending_admission reference_platform
              (Admission.of_body Demo.eve) Demo.w0 Demo.d0 eq_refl)
    as (d' & rec & Hrun & Hcoll & _ & _ & Hpending & Hname & _).
  exists d', rec. split; [exact Hrun|].
  split; [exact Hcoll|]. split; [exact Hpending | exact Hname].
Defined.

Lemma store_failure_text_is_returned_as_is_witness :
  submit_admission database.create_document (Admission.of_body Demo.jane)
    Demo.w_none
  = (Raise (HTTPException 503 database.store_unavailable), Demo.w_none)
  ∧ list_students database.get_documents Demo.w_none
    = (Raise (HTTPException 503 database.store_unavailable), Demo.w_none)
  ∧ accept_admission Demo.jane_id Demo.w_none
    = (Raise (HTTPException 503 "Database not configured"), Demo.w_none).
Proof.
  destruct (@store_failure_text_is_returned_as_is reference_platform
              database.create_document database.get_documents
              Demo.w_none Demo.w_none (Exception database.store_unavailable))
    as (Hsubmit & Hget & _ & Hnone).
  split; [exact (Hsubmit _ eq_refl)|].
  split; [exact (proj1 (proj2 (Hget (λ _ _, eq_refl))))|].
  exact (proj1 (proj2 (Hnone eq_refl)) _).
Defined.

(** C8 fails as stated: a store failure whose text has 200 characters is
    answered with these 200 characters, and no bound holds for the length
    of the 503 detail of [submit_admission] and [list_admissions]. *)
Lemma store_failure_text_is_not_truncated :
  submit_admission (Demo.failing_create (Demo.long_text 200))
    (Admission.of_body Demo.jane) Demo.w0
  = (Raise (HTTPException 503 (Demo.long_text 200)), Demo.w0)
  ∧ String.length (Demo.long_text 200) = 200
  ∧ ¬ ∃ n, ∀ create_document get_documents a status w code detail,
        (submit_admission create_document a w).1
        = Raise (HTTPException code detail)
        ∨ (list_admissions get_documents status w).1
          = Raise (HTTPException code detail) →
        String.length detail ≤ n.
Proof.
  split; [reflexivity|]. split; [reflexivity|].
  intros [n Hn].
  specialize (Hn (Demo.failing_create (Demo.long_text (S n)))
                (Demo.failing_get (Demo.long_text (S n)))
                (Admission.of_body Demo.jane) None Demo.w0 503
                (Demo.long_text (S n)) (or_introl eq_refl)).
  assert (Hlen : ∀ m, String.length (Demo.long_text m) = m)
    by (induction m; simpl; congruence).
  rewrite Hlen in Hn. lia.
Qed.

Lemma empty_string_filter_is_no_filter_witness :
  list_admissions database.get_documents (Some EmptyString) Demo.w2
  = list_admissions database.get_documents None Demo.w2
  ∧ (list_admissions database.get_documents (Some EmptyString) Demo.w2).1
    = Ok (RList (map serialize_doc (collection Demo.d2 "admission")))
  ∧ length (collection Demo.d2 "admission") = 1.
Proof.
  destruct (@empty_string_filter_is_no_filter reference_platform
              Demo.w2 Demo.d2 None None eq_refl) as (Heq & Hall & _).
  split; [exact Heq|]. rewrite Heq, Hall. split; reflexivity.
Defined.

End helper_examples.

(** ** More on dicts and on [serialize_doc] *)

Section serialize_facts.
Context `{PF : Platform}.

Lemma dict_set_keys k v (d : doc) :
  (dict_set k v d).*1 = if decide (k ∈ d.*1) then d.*1 else d.*1 ++ [k].
Proof.
  induction d as [|[k' v'] d IH]; [done|].
  cbn [dict_set]. rewrite fmap_cons. cbn [fst].
  destruct (decide (k' = k)) as [->|Hne].
  - rewrite fmap_cons. cbn [fst].
    by rewrite decide_True by apply list_elem_of_here.
  - rewrite fmap_cons, IH. cbn [fst].
    destruct (decide (k ∈ d.*1)) as [Hin|Hin].
    + by rewrite decide_True by by apply list_elem_of_further.
    + rewrite decide_False; [done|]. apply not_elem_of_cons. by split.
Qed.

Lemma dict_set_NoDup k v (d : doc) : NoDup d.*1 → NoDup (dict_set k v d).*1.
Proof.
  intros Hnd. rewrite dict_set_keys. case_decide; [done|].
  apply NoDup_app. split; [done|]. split.
  - intros x Hx Hk. apply list_elem_of_singleton in Hk as ->. done.
  - apply NoDup_singleton.
Qed.

Lemma dict_set_fresh k v (d : doc) : k ∉ d.*1 → dict_set k v d = d ++ [(k, v)].
Proof.
  induction d as [|[k' v'] d IH]; simpl; [done|].
  intros Hk. apply not_elem_of_cons in Hk as [Hne Hk].
  rewrite decide_False by done. by rewrite IH.
Qed.

Lemma dict_set_Forall (P : string * value → Prop) k v (d : doc) :
  P (k, v) → Forall P d → Forall P (dict_set k v d).
Proof.
  intros Hkv. induction 1 as [|[k' v'] d Hx Hd IH]; simpl.
  - by repeat constructor.
  - case_decide; by constructor.
Qed.

(** Writing the pairs of a dict one by one after a dict with other keys
    appends them. *)
Lemma fold_dict_set_app (l acc : doc) :
  NoDup (acc ++ l).*1 →
  fold_left (λ out kv, dict_set kv.1 kv.2 out) l acc = acc ++ l.
Proof.
  revert acc. induction l as [|[k v] l IH]; intros acc Hnd; simpl.
  - by rewrite app_nil_r.
  - rewrite dict_set_fresh.
    + rewrite IH; rewrite <- app_assoc; done.
    + rewrite fmap_app in Hnd. apply NoDup_app in Hnd as (_ & Hdisj & _).
      intros Hk. apply (Hdisj k Hk). simpl. apply list_elem_of_here.
Qed.

Lemma serialize_value_ready v : json_ready (serialize_value v).
Proof. by destruct v. Qed.

Lemma serialize_value_id v : json_ready v → serialize_value v = v.
Proof. by destruct v. Qed.

Lemma serialize_field_serialized out kv :
  serialized out → serialized (serialize_field out kv).
Proof.
  intros Hout. unfold serialize_field. case_decide.
  - by apply dict_set_Forall.
  - apply dict_set_Forall; [|done]. split; [done|].
    apply serialize_value_ready.
Qed.

Lemma serialize_fold_serialized (d out : doc) :
  serialized out → serialized (fold_left serialize_field d out).
Proof.
  revert out. induction d as [|kv d IH]; intros out Hout; simpl; [done|].
  by apply IH, serialize_field_serialized.
Qed.

Lemma serialize_fold_NoDup (d out : doc) :
  NoDup out.*1 → NoDup (fold_left serialize_field d out).*1.
Proof.
  revert out. induction d as [|kv d IH]; intros out Hout; simpl; [done|].
  apply IH. unfold serialize_field. case_decide; by apply dict_set_NoDup.
Qed.

Lemma serialize_doc_serialized_aux (d : doc) : serialized (serialize_doc d).
Proof.
  unfold serialize_doc. destruct d as [|kv d]; [by constructor|].
  apply serialize_fold_serialized. by constructor.
Qed.

Lemma serialize_doc_NoDup (d : doc) : NoDup (serialize_doc d).*1.
Proof.
  unfold serialize_doc. destruct d as [|kv d]; [by constructor|].
  apply serialize_fold_NoDup. by constructor.
Qed.

(** On a serialised dict the loop of [serialize_doc] writes every pair
    back as it is. *)
Lemma serialize_fold_on_serialized (l acc : doc) :
  serialized l →
  fold_left serialize_field l acc
  = fold_left (λ out kv, dict_set kv.1 kv.2 out) l acc.
Proof.
  revert acc. induction l as [|[k v] l IH]; intros acc Hl; simpl; [done|].
  apply Forall_cons in Hl as [[Hk Hv] Hl]. simpl in *.
  rewrite IH by done. f_equal. unfold serialize_field. simpl.
  rewrite decide_False by done. by rewrite serialize_value_id.
Qed.

(** X1. On a dict (no key twice) without a field named [id],
    [serialize_doc] renames [_id] to [id] and prints it as a string, turns
    dates and datetimes into their ISO text and hands every other field on
    as it is; an absent field stays absent. *)
Theorem serialize_doc_fields (d : doc) k :
  NoDup d.*1 → "id" ∉ d.*1 →
  dict_get k (serialize_doc d)
  = if decide (k = "id") then (λ v, VStr (str v)) <$> dict_get "_id" d
    else if decide (k = "_id") then None
    else serialize_value <$> dict_get k d.
Proof.
  intros Hnd Hid. destruct (decide (k = "id")) as [->|Hk].
  - destruct (dict_get "_id" d) as [v|] eqn:Hv; simpl.
    + by apply serialize_doc_get_id.
    + unfold serialize_doc. destruct (dict_truthy d) eqn:Ht.
      * rewrite serialize_fold_get_id by done. by rewrite Hv.
      * by destruct d.
  - destruct (decide (k = "_id")) as [->|H_id].
    + apply dict_get_None_keys. intros Hin.
      apply list_elem_of_fmap in Hin as ([k' v'] & Hk' & Hin).
      pose proof (serialize_doc_serialized_aux d) as Hs.
      unfold serialized in Hs. rewrite Forall_forall in Hs.
      destruct (Hs _ Hin) as [Hne _]. simpl in *. congruence.
    + by apply serialize_doc_get.
Qed.

(** X2. Whatever the document, the result of [serialize_doc] has no [_id]
    field, no key twice and no date or datetime value left. *)
Theorem serialize_doc_is_serialized (d : doc) :
  dict_get "_id" (serialize_doc d) = None
  ∧ NoDup (serialize_doc d).*1
  ∧ ∀ k v, dict_get k (serialize_doc d) = Some v → json_ready v.
Proof.
  pose proof (serialize_doc_serialized_aux d) as Hs.
  unfold serialized in Hs. rewrite Forall_forall in Hs.
  split; [|split].
  - apply dict_get_None_keys. intros Hin.
    apply list_elem_of_fmap in Hin as ([k' v'] & Hk' & Hin).
    destruct (Hs _ Hin) as [Hne _]. simpl in *. congruence.
  - apply serialize_doc_NoDup.
  - intros k v Hkv. apply dict_get_Some_elem in Hkv.
    by destruct (Hs _ Hkv).
Qed.

(** X3. Serialising twice is serialising once. *)
Theorem serialize_doc_idempotent (d : doc) :
  serialize_doc (serialize_doc d) = serialize_doc d.
Proof.
  pose proof (serialize_doc_serialized_aux d) as Hs.
  pose proof (serialize_doc_NoDup d) as Hnd.
  destruct (serialize_doc d) as [|kv out] eqn:Hout; [done|].
  unfold serialize_doc at 1. simpl dict_truthy. cbv iota.
  rewrite serialize_fold_on_serialized by done.
  by rewrite fold_dict_set_app.
Qed.

End serialize_facts.

(** ** More on accepting an admission *)

Section accept_more.
Context `{PF : Platform}.

Lemma accept_bad_id_cases id w d :
  db w = Some d →
  (ObjectId_of_str id = None →
   accept_admission id w
   = (Raise (HTTPException 400 "Invalid admission id"), w))
  ∧ (∀ oid, ObjectId_of_str id = Some oid →
       find_one [("_id", VOid oid)] (collection d "admission") = None →
       accept_admission id w
       = (Raise (HTTPException 404 "Admission not found"), w)).
Proof.
  intros Hdb. split.
  - intros Hoid. unfold accept_admission, mbind, M_bind, get_db.
    rewrite Hdb. unfold ObjectId_or_raise. by rewrite Hoid.
  - intros oid Hoid Hfind. unfold accept_admission, mbind, M_bind, get_db.
    rewrite Hdb. unfold ObjectId_or_raise. rewrite Hoid.
    unfold mret at 1, M_ret at 1. unfold query_db. by rewrite Hdb, Hfind.
Qed.

(** What [accept_admission] does once the identifier has found a
    document. *)
Lemma accept_admission_found id w d oid (adm : doc) :
  db w = Some d →
  ObjectId_of_str id = Some oid →
  find_one [("_id", VOid oid)] (collection d "admission") = Some adm →
  accept_admission id w
  = match dict_get "full_name" adm, dict_get "email" adm,
          dict_get "program" adm with
    | Some fn, Some em, Some pr =>
        (Ok (RObj [ ("message", JVal (VStr "Admission accepted"));
                    ("student_id",
                     JVal (VStr (ObjectId_str (ObjectId_fresh (generated d))))) ]),
         mkWorld (Some (accepted_db oid fn em pr (clock w) d)) (clock w + 3))
    | None, _, _ => (Raise (key_error "full_name"), w)
    | Some _, None, _ => (Raise (key_error "email"), w)
    | Some _, Some _, None => (Raise (key_error "program"), w)
    end.
Proof.
  intros Hdb Hoid Hfind.
  destruct (dict_get "full_name" adm) as [fn|] eqn:Hfn;
    [destruct (dict_get "email" adm) as [em|] eqn:Hem;
      [destruct (dict_get "program" adm) as [pr|] eqn:Hpr|]|];
    [by apply (accept_admission_run id w d oid adm)|..];
    unfold accept_admission, mbind, M_bind, get_db; rewrite Hdb;
    unfold ObjectId_or_raise; rewrite Hoid; unfold mret at 1, M_ret at 1;
    unfold query_db; rewrite Hdb;
    rewrite (not_find_one "_id" (VOid oid)) by (done || apply list_elem_of_here);
    rewrite Hfind; simpl; unfold getitem;
    rewrite ?Hfn, ?Hem, ?Hpr; done.
Qed.

(** X4. When [accept_admission] answers with an HTTP error it has written
    nothing: each of its own errors is raised before the first write, so
    the world is the one it was given.  These errors are 503 without a
    store, 400 for an identifier [ObjectId] refuses and 404 when no
    Admission is found. *)
Theorem accept_http_error_writes_nothing id w status_code detail :
  (accept_admission id w).1 = Raise (HTTPException status_code detail) →
  (accept_admission id w).2 = w
  ∧ ((status_code, detail) = (503, "Database not configured")
     ∨ (status_code, detail) = (400, "Invalid admission id")
     ∨ (status_code, detail) = (404, "Admission not found")).
Proof.
  destruct (db w) as [d|] eqn:Hdb.
  - destruct (ObjectId_of_str id) as [oid|] eqn:Hoid.
    + destruct (find_one [("_id", VOid oid)] (collection d "admission"))
        as [adm|] eqn:Hfind.
      * rewrite (accept_admission_found id w d oid adm) by done.
        unfold key_error.
        by destruct (dict_get "full_name" adm), (dict_get "email" adm),
          (dict_get "program" adm).
      * destruct (accept_bad_id_cases id w d Hdb) as [_ H404].
        rewrite (H404 oid) by done. simpl. intros [= <- <-]. auto.
    + destruct (accept_bad_id_cases id w d Hdb) as [H400 _].
      rewrite H400 by done. simpl. intros [= <- <-]. auto.
  - unfold accept_admission, mbind, M_bind, get_db. rewrite Hdb. simpl.
    intros [= <- <-]. auto.
Qed.

(** X5. An Admission document that lacks [full_name], [email] or
    [program] cannot be accepted: the request ends in the [KeyError] of the
    first missing field, in that order, and no Student is stored. *)
Theorem accept_missing_field_is_key_error id w d oid (adm : doc) :
  db w = Some d →
  ObjectId_of_str id = Some oid →
  find_one [("_id", VOid oid)] (collection d "admission") = Some adm →
  (dict_get "full_name" adm = None →
   accept_admission id w = (Raise (key_error "full_name"), w))
  ∧ (is_Some (dict_get "full_name" adm) → dict_get "email" adm = None →
     accept_admission id w = (Raise (key_error "email"), w))
  ∧ (is_Some (dict_get "full_name" adm) → is_Some (dict_get "email" adm) →
     dict_get "program" adm = None →
     accept_admission id w = (Raise (key_error "program"), w)).
Proof.
  intros Hdb Hoid Hfind.
  rewrite (accept_admission_found id w d oid adm) by done.
  split; [|split].
  - by intros ->.
  - by intros [fn ->] ->.
  - by intros [fn ->] [em ->] ->.
Qed.

(** X6. A successful accept neither adds nor removes an Admission, and in
    every Admission document it leaves all fields other than [status] and
    [updated_at] as they were, the identifier and [created_at] among
    them. *)
Theorem accept_keeps_other_fields id w d oid (adm : doc) fn em pr :
  db w = Some d →
  ObjectId_of_str id = Some oid →
  find_one [("_id", VOid oid)] (collection d "admission") = Some adm →
  dict_get "full_name" adm = Some fn →
  dict_get "email" adm = Some em →
  dict_get "program" adm = Some pr →
  ∃ d',
    db (accept_admission id w).2 = Some d'
    ∧ length (collection d' "admission") = length (collection d "admission")
    ∧ ∀ i x, collection d "admission" !! i = Some x →
        ∃ x', collection d' "admission" !! i = Some x'
          ∧ ∀ k, k ≠ "status" → k ≠ "updated_at" →
              dict_get k x' = dict_get k x.
Proof.
  intros Hdb Hoid Hfind Hfn Hem Hpr.
  rewrite (accept_admission_found id w d oid adm) by done.
  rewrite Hfn, Hem, Hpr. simpl. eexists. split; [done|].
  destruct (accepted_db_admission oid fn em pr (clock w) d adm Hfind)
    as (pre & post & -> & _ & ->).
  split; [by rewrite !length_app|].
  intros i x Hi.
  destruct (decide (i = length pre)) as [->|Hne].
  - rewrite list_lookup_middle in Hi by done. injection Hi as <-.
    eexists. split; [by rewrite list_lookup_middle|].
    intros k ??. apply dict_get_update_ne. simpl.
    repeat (apply not_elem_of_cons; split; [done|]). apply not_elem_of_nil.
  - exists x. split; [|done].
    destruct (decide (i < length pre)).
    + rewrite lookup_app_l in Hi |- * by done. done.
    + rewrite lookup_app_r in Hi |- * by lia.
      destruct (i - length pre) as [|j] eqn:Hj; [lia|]. done.
Qed.

End accept_more.

(** ** More on recording attendance *)

Section attendance_more.
Context `{PF : Platform}.

Lemma mark_attendance_bad_id req w d :
  db w = Some d →
  (ObjectId_of_str (AttendanceRequest.student_id req) = None →
   mark_attendance req w
   = (Raise (HTTPException 400 "Invalid student id"), w))
  ∧ (∀ sid, ObjectId_of_str (AttendanceRequest.student_id req) = Some sid →
       find_one [("_id", VOid sid)] (collection d "student") = None →
       mark_attendance req w
       = (Raise (HTTPException 404 "Student not found"), w)).
Proof.
  intros Hdb. split.
  - intros Hsid. unfold mark_attendance, mbind, M_bind, get_db.
    rewrite Hdb. unfold ObjectId_or_raise. by rewrite Hsid.
  - intros sid Hsid Hst. unfold mark_attendance, mbind, M_bind, get_db.
    rewrite Hdb. unfold ObjectId_or_raise. rewrite Hsid.
    unfold mret at 1, M_ret at 1. unfold query_db. by rewrite Hdb, Hst.
Qed.

(** X7. [mark_attendance] answers 400 for a student id [ObjectId] refuses
    and 404 for a well-formed id that finds no Student; these and the 503
    without a store are the HTTP errors it raises, each before the upsert,
    so a request answered with one of them has written nothing. *)
Theorem record_http_errors_write_nothing req w :
  (∀ status_code detail,
     (mark_attendance req w).1 = Raise (HTTPException status_code detail) →
     (mark_attendance req w).2 = w
     ∧ ((status_code, detail) = (503, "Database not configured")
        ∨ (status_code, detail) = (400, "Invalid student id")
        ∨ (status_code, detail) = (404, "Student not found")))
  ∧ (∀ d, db w = Some d →
       (ObjectId_of_str (AttendanceRequest.student_id req) = None →
        mark_attendance req w
        = (Raise (HTTPException 400 "Invalid student id"), w))
       ∧ (∀ sid,
            ObjectId_of_str (AttendanceRequest.student_id req) = Some sid →
            find_one [("_id", VOid sid)] (collection d "student") = None →
            mark_attendance req w
            = (Raise (HTTPException 404 "Student not found"), w))).
Proof.
  split; [|apply mark_attendance_bad_id].
  intros status_code detail. destruct (db w) as [d|] eqn:Hdb.
  - destruct (mark_attendance_bad_id req w d Hdb) as [H400 H404].
    destruct (ObjectId_of_str (AttendanceRequest.student_id req))
      as [sid|] eqn:Hsid.
    + destruct (find_one [("_id", VOid sid)] (collection d "student"))
        as [st|] eqn:Hst.
      * by rewrite (mark_attendance_run req w d sid).
      * rewrite (H404 sid) by done. simpl. intros [= <- <-]. auto.
    + rewrite H400 by done. simpl. intros [= <- <-]. auto.
  - unfold mark_attendance, mbind, M_bind, get_db. rewrite Hdb. simpl.
    intros [= <- <-]. auto.
Qed.

(** A document of one pair is not selected by the query of another. *)
Lemma pair_query_other s dt s' dt' (x : doc) :
  matches (pair_query s dt) x → (s', dt') ≠ (s, dt) →
  ¬ matches (pair_query s' dt') x.
Proof.
  intros Hx Hne Hx'.
  pose proof (matches_field "student_id" (VStr s) _ _
                ltac:(done) ltac:(apply list_elem_of_here) Hx) as H1.
  pose proof (matches_field "date" (VStr dt) _ _ ltac:(done)
                ltac:(apply list_elem_of_further, list_elem_of_here) Hx) as H2.
  pose proof (matches_field "student_id" (VStr s') _ _
                ltac:(done) ltac:(apply list_elem_of_here) Hx') as H3.
  pose proof (matches_field "date" (VStr dt') _ _ ltac:(done)
                ltac:(apply list_elem_of_further, list_elem_of_here) Hx') as H4.
  apply Hne. congruence.
Qed.

Lemma recorded_db_other_pair req sid t d s dt :
  (s, dt) ≠ (ObjectId_str sid, date_isoformat (AttendanceRequest.date req)) →
  find (pair_query s dt) (collection (recorded_db req sid t d) "attendance")
  = find (pair_query s dt) (collection d "attendance").
Proof.
  intros Hne.
  set (q := pair_query (ObjectId_str sid)
              (date_isoformat (AttendanceRequest.date req))).
  destruct (find_one q (collection d "attendance")) as [old|] eqn:Hq.
  - destruct (recorded_db_again req sid t d old Hq)
      as (pre & post & Hsplit & _ & ->).
    apply find_one_Some in Hq as (_ & _ & _ & Hold & _).
    rewrite Hsplit.
    rewrite (find_middle _ pre post old old) by done.
    rewrite (find_middle _ pre post old)
      by by apply attendance_set_same_pair.
    by rewrite !decide_False by by apply (pair_query_other _ _ _ _ _ Hold).
  - apply find_nil_iff in Hq as Hnone. rewrite recorded_db_first by done.
    unfold find. rewrite filter_app, filter_cons, filter_nil.
    rewrite decide_False; [by rewrite app_nil_r|].
    intros Hm. apply attendance_record_pair in Hm as [-> ->]. done.
Qed.

(** X8. A successful record touches the attendance collection only, and
    there only the records of its own (student_id, date) pair: what a query
    for any other pair returns is unchanged, and the collection grows by
    one document when the pair had none and keeps its size otherwise. *)
Theorem record_touches_its_pair_only req w d sid :
  db w = Some d →
  ObjectId_of_str (AttendanceRequest.student_id req) = Some sid →
  is_Some (find_one [("_id", VOid sid)] (collection d "student")) →
  let q := pair_query (ObjectId_str sid)
             (date_isoformat (AttendanceRequest.date req)) in
  ∃ d',
    db (mark_attendance req w).2 = Some d'
    ∧ (∀ name, name ≠ "attendance" → collection d' name = collection d name)
    ∧ (∀ s dt,
         (s, dt) ≠ (ObjectId_str sid,
                    date_isoformat (AttendanceRequest.date req)) →
         find (pair_query s dt) (collection d' "attendance")
         = find (pair_query s dt) (collection d "attendance"))
    ∧ length (collection d' "attendance")
      = length (collection d "attendance")
        + (if decide (find q (collection d "attendance") = []) then 1 else 0).
Proof.
  intros Hdb Hsid Hst q.
  rewrite (mark_attendance_run req w d sid) by done. simpl.
  eexists. split; [done|].
  split; [intros name Hne; by apply recorded_db_other|].
  split; [intros s dt Hne; by apply recorded_db_other_pair|].
  destruct (find_one q (collection d "attendance")) as [old|] eqn:Hq.
  - destruct (recorded_db_again req sid (clock w) d old Hq)
      as (pre & post & Hsplit & _ & ->).
    apply find_one_Some in Hq as (_ & _ & _ & Hold & _).
    rewrite Hsplit. rewrite decide_False.
    + rewrite !length_app. simpl. lia.
    + rewrite (find_middle _ pre post old old) by done.
      rewrite decide_True by done. by destruct (find q pre).
  - apply find_nil_iff in Hq as Hnone. rewrite recorded_db_first by done.
    rewrite decide_True by done. rewrite length_app. simpl. lia.
Qed.

(** X9. The record is keyed by the parsed identifier, not by the text of
    the request: two spellings that [ObjectId] reads as the same identifier
    give the same answer and the same store. *)
Theorem record_same_id_same_effect s1 s2 sid dt status note w :
  ObjectId_of_str s1 = Some sid →
  ObjectId_of_str s2 = Some sid →
  mark_attendance (AttendanceRequest.mk s1 dt status note) w
  = mark_attendance (AttendanceRequest.mk s2 dt status note) w.
Proof.
  intros H1 H2. unfold mark_attendance, mbind, M_bind, get_db.
  destruct (db w); [|done]. unfold ObjectId_or_raise. simpl.
  by rewrite H1, H2.
Qed.

(** X10. The identifier [accept_admission] returns is one
    [mark_attendance] accepts: when [ObjectId] reads a printed identifier
    back, a record for the new Student right after the accept succeeds. *)
Theorem record_after_accept_succeeds id w d oid (adm : doc) fn em pr
    dt status note :
  db w = Some d →
  ObjectId_of_str id = Some oid →
  find_one [("_id", VOid oid)] (collection d "admission") = Some adm →
  dict_get "full_name" adm = Some fn →
  dict_get "email" adm = Some em →
  dict_get "program" adm = Some pr →
  ObjectId_of_str (ObjectId_str (ObjectId_fresh (generated d)))
  = Some (ObjectId_fresh (generated d)) →
  let student_id := ObjectId_str (ObjectId_fresh (generated d)) in
  (accept_admission id w).1
  = Ok (RObj [ ("message", JVal (VStr "Admission accepted"));
               ("student_id", JVal (VStr student_id)) ])
  ∧ (mark_attendance (AttendanceRequest.mk student_id dt status note)
       (accept_admission id w).2).1
    = Ok (RObj [ ("message", JVal (VStr "Attendance recorded")) ]).
Proof.
  intros Hdb Hoid Hfind Hfn Hem Hpr Hround student_id.
  rewrite (accept_admission_run id w d oid adm fn em pr) by done.
  split; [done|]. simpl.
  rewrite (mark_attendance_run _ _ (accepted_db oid fn em pr (clock w) d)
             (ObjectId_fresh (generated d))); [done..|].
  rewrite (accepted_db_student _ _ _ _ _ _ adm) by done.
  apply find_one_elem. eexists. split.
  - apply elem_of_app. right. apply list_elem_of_here.
  - apply Forall_cons. split; [|apply Forall_nil_2].
    unfold field_matches. simpl. done.
Qed.

End attendance_more.

(** ** Dates as keys *)

Section date_facts.

Lemma string_app_inj (s1 s2 t1 t2 : string) :
  String.length s1 = String.length s2 →
  s1 +:+ t1 = s2 +:+ t2 → s1 = s2 ∧ t1 = t2.
Proof.
  revert s2. induction s1 as [|c s1 IH]; intros [|c' s2] Hlen Heq;
    simpl in *; try done.
  injection Heq as -> Heq. injection Hlen as Hlen.
  destruct (IH s2 Hlen Heq) as [-> ->]. done.
Qed.

(** Four digits for a year, read back as the year. *)
Lemma zfill_year n :
  n < 100 * 100 →
  String.length (zfill 4 (pretty n)) = 4
  ∧ digits_value (zfill 4 (pretty n)) = n.
Proof.
  intros Hn.
  assert (Hall : forallb
            (λ n, (String.length (zfill 4 (pretty n)) =? 4)
                  && (digits_value (zfill 4 (pretty n)) =? n))
            (seq 0 (100 * 100)) = true) by (vm_compute; reflexivity).
  rewrite forallb_forall in Hall.
  specialize (Hall n ltac:(apply in_seq; lia)).
  apply andb_true_iff in Hall as [H1 H2].
  by apply Nat.eqb_eq in H1, H2.
Qed.

(** Two digits for a month or a day, read back as the number. *)
Lemma zfill_month_day n :
  n < 100 →
  String.length (zfill 2 (pretty n)) = 2
  ∧ digits_value (zfill 2 (pretty n)) = n.
Proof.
  intros Hn.
  assert (Hall : forallb
            (λ n, (String.length (zfill 2 (pretty n)) =? 2)
                  && (digits_value (zfill 2 (pretty n)) =? n))
            (seq 0 100) = true) by (vm_compute; reflexivity).
  rewrite forallb_forall in Hall.
  specialize (Hall n ltac:(apply in_seq; lia)).
  apply andb_true_iff in Hall as [H1 H2].
  by apply Nat.eqb_eq in H1, H2.
Qed.

Lemma date_isoformat_inj d1 d2 :
  valid_date d1 → valid_date d2 →
  date_isoformat d1 = date_isoformat d2 → d1 = d2.
Proof.
  intros (Hy1 & Hm1 & Hd1) (Hy2 & Hm2 & Hd2). unfold date_isoformat.
  destruct d1 as [y1 m1 a1], d2 as [y2 m2 a2]. simpl in *.
  destruct (zfill_year y1) as [Ly1 Vy1]; [lia|].
  destruct (zfill_year y2) as [Ly2 Vy2]; [lia|].
  destruct (zfill_month_day m1) as [Lm1 Vm1]; [lia|].
  destruct (zfill_month_day m2) as [Lm2 Vm2]; [lia|].
  destruct (zfill_month_day a1) as [La1 Va1]; [lia|].
  destruct (zfill_month_day a2) as [La2 Va2]; [lia|].
  intros Heq.
  apply string_app_inj in Heq as [Hy Heq]; [|congruence].
  apply (string_app_inj "-" "-") in Heq as [_ Heq]; [|done].
  apply string_app_inj in Heq as [Hm Heq]; [|congruence].
  apply (string_app_inj "-" "-") in Heq as [_ Ha]; [|done].
  f_equal; congruence.
Qed.

End date_facts.

Section attendance_dates.
Context `{PF : Platform}.

(** X11. Records are kept apart by calendar day: a successful record for
    one date leaves what the same student has on any other date as it
    was, the ISO text of two different dates being different. *)
Theorem record_leaves_other_dates req w d sid other :
  db w = Some d →
  ObjectId_of_str (AttendanceRequest.student_id req) = Some sid →
  is_Some (find_one [("_id", VOid sid)] (collection d "student")) →
  valid_date (AttendanceRequest.date req) →
  valid_date other →
  other ≠ AttendanceRequest.date req →
  date_isoformat other ≠ date_isoformat (AttendanceRequest.date req)
  ∧ ∃ d',
      db (mark_attendance req w).2 = Some d'
      ∧ find (pair_query (ObjectId_str sid) (date_isoformat other))
          (collection d' "attendance")
        = find (pair_query (ObjectId_str sid) (date_isoformat other))
            (collection d "attendance").
Proof.
  intros Hdb Hsid Hst Hv Hv' Hne.
  assert (Hiso : date_isoformat other
                 ≠ date_isoformat (AttendanceRequest.date req))
    by (intros Heq; by apply Hne, date_isoformat_inj).
  split; [done|].
  rewrite (mark_attendance_run req w d sid) by done. simpl.
  eexists. split; [done|].
  apply recorded_db_other_pair. congruence.
Qed.

End attendance_dates.

(** ** More on login and on the default admin *)

Section login_more.
Context `{PF : Platform}.

(** The answer of [login] depends on the store through the users only. *)
Lemma login_answer_ext req w w' d d' :
  db w = Some d → db w' = Some d' →
  collection d' "adminuser" = collection d "adminuser" →
  (login req w').1 = (login req w).1.
Proof.
  intros Hdb Hdb' Husers.
  rewrite (login_run req w d Hdb), (login_run req w' d' Hdb'), Husers.
  destruct (find_one _ _) as [u|]; [|done].
  simpl. by destruct (dict_get "id" (serialize_doc u)).
Qed.

(** The world after [accept_admission]: untouched, or the store of a
    successful accept. *)
Lemma accept_admission_world id w :
  (accept_admission id w).2 = w
  ∨ ∃ d oid adm fn em pr,
      db w = Some d
      ∧ find_one [("_id", VOid oid)] (collection d "admission") = Some adm
      ∧ (accept_admission id w).2
        = mkWorld (Some (accepted_db oid fn em pr (clock w) d)) (clock w + 3).
Proof.
  destruct (db w) as [d|] eqn:Hdb.
  - destruct (accept_bad_id_cases id w d Hdb) as [H400 H404].
    destruct (ObjectId_of_str id) as [oid|] eqn:Hoid.
    + destruct (find_one [("_id", VOid oid)] (collection d "admission"))
        as [adm|] eqn:Hfind.
      * rewrite (accept_admission_found id w d oid adm) by done.
        destruct (dict_get "full_name" adm) as [fn|]; [|by left].
        destruct (dict_get "email" adm) as [em|]; [|by left].
        destruct (dict_get "program" adm) as [pr|]; [|by left].
        right. by exists d, oid, adm, fn, em, pr.
      * left. by rewrite (H404 oid).
    + left. by rewrite H400.
  - left. unfold accept_admission, mbind, M_bind, get_db. by rewrite Hdb.
Qed.

(** X12. [login] only reads: whatever the request and the store, and
    whether it succeeds or fails, the world after it is the world before
    it. *)
Theorem login_only_reads req w : (login req w).2 = w.
Proof.
  destruct (db w) as [d|] eqn:Hdb.
  - rewrite (login_run req w d Hdb).
    destruct (find_one _ _) as [u|]; [|done].
    simpl. by destruct (dict_get "id" (serialize_doc u)).
  - unfold login, mbind, M_bind, get_db. by rewrite Hdb.
Qed.

(** X13. Accepting admissions and recording attendance never change who
    can log in: after either operation, failed or not, every login request
    gets the answer it would have got before. *)
Theorem login_unaffected_by_accept_and_record req id rec w :
  (login req (accept_admission id w).2).1 = (login req w).1
  ∧ (login req (mark_attendance rec w).2).1 = (login req w).1.
Proof.
  split.
  - destruct (accept_admission_world id w)
      as [-> | (d & oid & adm & fn & em & pr & Hdb & Hfind & ->)]; [done|].
    eapply login_answer_ext; [exact Hdb | reflexivity |].
    rewrite (accepted_db_other _ _ _ _ _ _ adm) by done.
    by apply collection_insert_one_ne.
  - destruct (mark_attendance_cases rec w) as [-> | (d & sid & Hdb & ->)];
      [done|].
    eapply login_answer_ext; [exact Hdb | reflexivity |].
    by apply recorded_db_other.
Qed.

Lemma find_one_all (c : list doc) : find_one [] c = head c.
Proof.
  unfold find_one. by destruct c as [|x c].
Qed.

(** What [ensure_default_admin] does on a configured store. *)
Lemma ensure_default_admin_run w d :
  db w = Some d →
  ensure_default_admin w
  = if not_ (head (collection d "adminuser")) then
      (Ok (),
       mkWorld
         (Some (insert_one "adminuser"
                  (tail (default_admin_record (ObjectId_fresh (generated d))
                           (utcnow_at (clock w)) (utcnow_at (clock w + 1))))
                  d).2)
         (clock w + 2))
    else (Ok (), w).
Proof.
  intros Hdb. unfold ensure_default_admin, mbind, M_bind, get_db.
  rewrite Hdb. unfold query_db. rewrite Hdb, find_one_all.
  destruct (not_ (head (collection d "adminuser"))); [|done].
  unfold utcnow, on_db, mret, M_ret. simpl. rewrite Hdb. simpl.
  by replace (clock w + 1) with (S (clock w)) by lia;
     replace (clock w + 2) with (S (S (clock w))) by lia.
Qed.

Lemma ensure_default_admin_noop w d (u : doc) rest :
  db w = Some d →
  collection d "adminuser" = u :: rest →
  u ≠ [] →
  ensure_default_admin w = (Ok (), w).
Proof.
  intros Hdb Husers Hu.
  rewrite (ensure_default_admin_run w d Hdb), Husers.
  by destruct u.
Qed.

(** X14. [ensure_default_admin] does nothing without a store and does
    nothing when the user collection starts with a user; whatever it does,
    the users that were there stay, in their order, at the head of the
    collection, and no other collection changes. *)
Theorem default_admin_leaves_existing_users w :
  (db w = None → (ensure_default_admin w).2 = w)
  ∧ (∀ d, db w = Some d →
       (∀ u rest, collection d "adminuser" = u :: rest → u ≠ [] →
                  (ensure_default_admin w).2 = w)
       ∧ ∃ d' added,
           db (ensure_default_admin w).2 = Some d'
           ∧ collection d' "adminuser" = collection d "adminuser" ++ added
           ∧ ∀ name, name ≠ "adminuser" →
               collection d' name = collection d name).
Proof.
  destruct (db w) as [d|] eqn:Hdb.
  - rewrite (ensure_default_admin_run w d Hdb).
    split; [done|].
    intros ? [= <-]. split.
    + intros u rest -> Hu. simpl. by destruct u.
    + destruct (not_ _); simpl.
      * eexists _, _. split; [done|].
        split; [apply collection_insert_one_eq|].
        intros name Hne. by apply collection_insert_one_ne.
      * exists d, []. by rewrite app_nil_r.
  - unfold ensure_default_admin, mbind, M_bind, get_db. rewrite Hdb.
    by split.
Qed.

(** X15. On a store without users [ensure_default_admin] stores exactly
    one user, the default admin, and a login with the default credentials
    then succeeds and answers with that user: its identifier, name
    "Default Admin", email "admin@college.edu" and role "admin". *)
Theorem default_admin_can_log_in w d :
  db w = Some d →
  collection d "adminuser" = [] →
  let w' := (ensure_default_admin w).2 in
  let oid := ObjectId_fresh (generated d) in
  ∃ d',
    w' = mkWorld (Some d') (clock w + 2)
    ∧ collection d' "adminuser"
      = [ default_admin_record oid (utcnow_at (clock w))
            (utcnow_at (clock w + 1)) ]
    ∧ login (LoginRequest.mk "admin@college.edu" "admin123") w'
      = (Ok (login_ok (VStr (ObjectId_str oid)) (VStr "Default Admin")
               (VStr "admin@college.edu") (VStr "admin")), w').
Proof.
  intros Hdb Hnone w' oid. unfold w'.
  rewrite (ensure_default_admin_run w d Hdb), Hnone.
  change (not_ (head [])) with true. cbv iota.
  set (d' := (insert_one "adminuser"
                (tail (default_admin_record (ObjectId_fresh (generated d))
                         (utcnow_at (clock w)) (utcnow_at (clock w + 1))))
                d).2).
  assert (Husers : collection d' "adminuser"
            = [ default_admin_record oid (utcnow_at (clock w))
                  (utcnow_at (clock w + 1)) ]).
  { unfold d'. by rewrite collection_insert_one_eq, Hnone. }
  exists d'. split; [done|]. split; [done|]. cbn [snd].
  rewrite (login_run _ (mkWorld (Some d') _) d' eq_refl), Husers.
  reflexivity.
Qed.

(** X16. The bootstrap is idempotent: on a store whose users carry their
    [_id], running [ensure_default_admin] a second time changes nothing. *)
Theorem default_admin_is_idempotent w :
  (∀ d, db w = Some d →
        Forall (λ u, is_Some (dict_get "_id" u)) (collection d "adminuser")) →
  ensure_default_admin (ensure_default_admin w).2
  = (Ok (), (ensure_default_admin w).2).
Proof.
  intros Hids. destruct (db w) as [d|] eqn:Hdb.
  - specialize (Hids d eq_refl).
    destruct (collection d "adminuser") as [|u rest] eqn:Husers.
    + set (d' := (insert_one "adminuser"
                    (tail (default_admin_record (ObjectId_fresh (generated d))
                             (utcnow_at (clock w)) (utcnow_at (clock w + 1))))
                    d).2).
      assert (Hfirst : ensure_default_admin w
                       = (Ok (), mkWorld (Some d') (clock w + 2))).
      { by rewrite (ensure_default_admin_run w d Hdb), Husers. }
      rewrite Hfirst. cbn [snd].
      apply (ensure_default_admin_noop _ d'
               (default_admin_record (ObjectId_fresh (generated d))
                  (utcnow_at (clock w)) (utcnow_at (clock w + 1))) []);
        [done | | done].
      unfold d'. by rewrite collection_insert_one_eq, Husers.
    + apply Forall_cons in Hids as [[v Hv] _].
      assert (Hfirst : ensure_default_admin w = (Ok (), w)).
      { apply (ensure_default_admin_noop w d u rest); [done..|].
        by intros ->. }
      by rewrite !Hfirst.
  - assert (Hnone : ensure_default_admin w = (Ok (), w))
      by (unfold ensure_default_admin, mbind, M_bind, get_db; by rewrite Hdb).
    by rewrite !Hnone.
Qed.

End login_more.

(** ** The listing endpoints *)

Section listing_facts.
Context `{PF : Platform}.
Variable get_documents : string → option doc → M (list doc).

Lemma listing_answer (m : M (list doc)) w r :
  ((docs ← try_except m unavailable; mret (RList (map serialize_doc docs)))
     w).1 = r →
  match r with
  | Ok resp => ∃ docs, resp = RList docs ∧ Forall serialized docs
  | Raise e => ∃ detail, e = HTTPException 503 detail
  end.
Proof.
  unfold mbind, M_bind, try_except, mret, M_ret.
  destruct (m w) as [[docs|e] w']; simpl; intros <-.
  - eexists. split; [done|]. apply Forall_forall. intros x Hx.
    apply list_elem_of_fmap in Hx as (y & -> & _).
    apply serialize_doc_serialized_aux.
  - by eexists.
Qed.

(** X17. Whatever the store helper returns or raises, [list_admissions],
    [list_students] and [get_attendance] either answer with a list of
    serialised documents (no [_id] field, no date or datetime value) or
    fail with status 503, never with anything else. *)
Theorem listings_answer_serialized_or_503 status student_id on_date w :
  let good (r : outcome response) :=
    match r with
    | Ok resp => ∃ docs, resp = RList docs ∧ Forall serialized docs
    | Raise e => ∃ detail, e = HTTPException 503 detail
    end in
  good (list_admissions get_documents status w).1
  ∧ good (list_students get_documents w).1
  ∧ good (get_attendance get_documents student_id on_date w).1.
Proof.
  intros good. repeat split; by eapply listing_answer.
Qed.

End listing_facts.

(** ** The further properties on concrete cases *)

Section more_examples.
#[local] Existing Instance reference_platform.

Lemma serialize_doc_fields_witness :
  dict_get "id" (serialize_doc Demo.jane_admission)
  = Some (VStr "000000000000000000000001")
  ∧ dict_get "_id" (serialize_doc Demo.jane_admission) = None
  ∧ dict_get "dob" (serialize_doc Demo.jane_admission)
    = Some (VStr "2005-06-07").
Proof.
  assert (Hnd : NoDup Demo.jane_admission.*1)
    by by apply (bool_decide_unpack _).
  assert (Hid : "id" ∉ Demo.jane_admission.*1)
    by by apply (bool_decide_unpack _).
  split; [|split].
  - exact (@serialize_doc_fields reference_platform Demo.jane_admission
             "id" Hnd Hid).
  - exact (@serialize_doc_fields reference_platform Demo.jane_admission
             "_id" Hnd Hid).
  - exact (@serialize_doc_fields reference_platform Demo.jane_admission
             "dob" Hnd Hid).
Defined.

Lemma accept_http_error_writes_nothing_witness :
  (accept_admission "not-an-id" Demo.w1).1
  = Raise (HTTPException 400 "Invalid admission id")
  ∧ (accept_admission "not-an-id" Demo.w1).2 = Demo.w1.
Proof.
  split; [reflexivity|].
  exact (proj1 (@accept_http_error_writes_nothing reference_platform
                  "not-an-id" Demo.w1 400 "Invalid admission id" eq_refl)).
Defined.

Lemma accept_missing_field_is_key_error_witness :
  accept_admission "00000000000000000000000a" Cases.w_incomplete
  = (Raise (Exception "'program'"), Cases.w_incomplete).
Proof.
  destruct (@accept_missing_field_is_key_error reference_platform
              "00000000000000000000000a" Cases.w_incomplete
              Cases.d_incomplete "00000000000000000000000a"
              Cases.incomplete_admission eq_refl eq_refl eq_refl)
    as (_ & _ & Hprogram).
  apply Hprogram; [by eexists | by eexists | reflexivity].
Defined.

Lemma accept_keeps_other_fields_witness :
  ∃ d' x',
    db (accept_admission Demo.jane_id Demo.w1).2 = Some d'
    ∧ length (collection d' "admission") = 1
    ∧ collection d' "admission" !! 0 = Some x'
    ∧ dict_get "phone" x' = Some (VStr "555-0100")
    ∧ dict_get "created_at" x' = Some (VDateTime (utcnow_at 2)).
Proof.
  destruct (@accept_keeps_other_fields reference_platform
              Demo.jane_id Demo.w1 Demo.d1 Demo.jane_id Demo.jane_admission
              (VStr "Jane Doe") (VStr "jane@example.org") (VStr "Engineering")
              eq_refl eq_refl eq_refl eq_refl eq_refl eq_refl)
    as (d' & Hdb & Hlen & Hkeep).
  destruct (Hkeep 0 Demo.jane_admission eq_refl) as (x' & Hx' & Hfields).
  exists d', x'. split; [exact Hdb|]. split; [exact Hlen|].
  split; [exact Hx'|].
  split; [exact (Hfields "phone" ltac:(done) ltac:(done))
         | exact (Hfields "created_at" ltac:(done) ltac:(done))].
Defined.

Lemma record_http_errors_write_nothing_witness :
  mark_attendance
    (AttendanceRequest.mk "not-an-id" Demo.march_1 "present" None) Demo.w2
  = (Raise (HTTPException 400 "Invalid student id"), Demo.w2)
  ∧ mark_attendance
      (AttendanceRequest.mk "00000000000000000000000f" Demo.march_1
         "present" None) Demo.w2
    = (Raise (HTTPException 404 "Student not found"), Demo.w2).
Proof.
  split.
  - exact (proj1 (proj2 (@record_http_errors_write_nothing reference_platform
                           (AttendanceRequest.mk "not-an-id" Demo.march_1
                              "present" None) Demo.w2)
                    Demo.d2 eq_refl) eq_refl).
  - exact (proj2 (proj2 (@record_http_errors_write_nothing reference_platform
                           (AttendanceRequest.mk "00000000000000000000000f"
                              Demo.march_1 "present" None) Demo.w2)
                    Demo.d2 eq_refl) _ eq_refl eq_refl).
Defined.

Lemma record_touches_its_pair_only_witness :
  ∃ d',
    db (mark_attendance
          (AttendanceRequest.mk Demo.jane_student Demo.march_1 "late" None)
          Demo.w2).2 = Some d'
    ∧ collection d' "student" = collection Demo.d2 "student"
    ∧ length (collection d' "attendance") = 1.
Proof.
  destruct (@record_touches_its_pair_only reference_platform
              (AttendanceRequest.mk Demo.jane_student Demo.march_1 "late" None)
              Demo.w2 Demo.d2 Demo.jane_student eq_refl eq_refl
              ltac:(by eexists))
    as (d' & Hdb & Hother & _ & Hlen).
  exists d'. split; [exact Hdb|].
  split; [exact (Hother "student" ltac:(done)) | exact Hlen].
Defined.

Lemma record_same_id_same_effect_witness :
  mark_attendance
    (AttendanceRequest.mk "00000000000000000000000A" Demo.march_1
       "present" None) Demo.w2
  = mark_attendance
      (AttendanceRequest.mk "00000000000000000000000a" Demo.march_1
         "present" None) Demo.w2.
Proof.
  exact (@record_same_id_same_effect reference_platform
           "00000000000000000000000A" "00000000000000000000000a"
           "00000000000000000000000a" Demo.march_1 "present" None Demo.w2
           eq_refl eq_refl).
Defined.

Lemma record_after_accept_succeeds_witness :
  (mark_attendance
     (AttendanceRequest.mk "000000000000000000000002" Demo.march_1
        "present" None)
     (accept_admission Demo.jane_id Demo.w1).2).1
  = Ok (RObj [ ("message", JVal (VStr "Attendance recorded")) ]).
Proof.
  exact (proj2 (@record_after_accept_succeeds reference_platform
                  Demo.jane_id Demo.w1 Demo.d1 Demo.jane_id
                  Demo.jane_admission (VStr "Jane Doe")
                  (VStr "jane@example.org") (VStr "Engineering")
                  Demo.march_1 "present" None
                  eq_refl eq_refl eq_refl eq_refl eq_refl eq_refl eq_refl)).
Defined.

Lemma record_leaves_other_dates_witness :
  date_isoformat Cases.march_2 ≠ date_isoformat Demo.march_1
  ∧ ∃ d',
      db (mark_attendance
            (AttendanceRequest.mk Demo.jane_student Demo.march_1
               "present" None) Demo.w2).2 = Some d'
      ∧ find (pair_query Demo.jane_student "2024-03-02")
          (collection d' "attendance") = [].
Proof.
  destruct (@record_leaves_other_dates reference_platform
              (AttendanceRequest.mk Demo.jane_student Demo.march_1
                 "present" None)
              Demo.w2 Demo.d2 Demo.jane_student Cases.march_2
              eq_refl eq_refl ltac:(by eexists))
    as (Hiso & d' & Hdb & Hsame);
    [unfold valid_date; simpl; lia | unfold valid_date; simpl; lia | done |].
  split; [exact Hiso|]. exists d'. split; [exact Hdb | exact Hsame].
Defined.

Lemma default_admin_leaves_existing_users_witness :
  (ensure_default_admin Demo.w0).2 = Demo.w0
  ∧ (ensure_default_admin Demo.w_none).2 = Demo.w_none.
Proof.
  destruct (@default_admin_leaves_existing_users reference_platform Demo.w0)
    as (_ & Hsome).
  destruct (@default_admin_leaves_existing_users reference_platform
              Demo.w_none) as (Hnone & _).
  split; [|exact (Hnone eq_refl)].
  destruct (Hsome Demo.d0 eq_refl) as [Hkeep _].
  apply (Hkeep Demo.default_admin []); [reflexivity | done].
Defined.

Lemma default_admin_can_log_in_witness :
  ∃ d',
    (ensure_default_admin Cases.w_boot).2 = mkWorld (Some d') 2
    ∧ login (LoginRequest.mk "admin@college.edu" "admin123")
        (ensure_default_admin Cases.w_boot).2
      = (Ok (login_ok (VStr "000000000000000000000000")
               (VStr "Default Admin") (VStr "admin@college.edu")
               (VStr "admin")),
         (ensure_default_admin Cases.w_boot).2).
Proof.
  destruct (@default_admin_can_log_in reference_platform
              Cases.w_boot Demo.empty_db eq_refl eq_refl)
    as (d' & Hw & _ & Hlogin).
  exists d'. split; [exact Hw | exact Hlogin].
Defined.

Lemma default_admin_is_idempotent_witness :
  ensure_default_admin (ensure_default_admin Cases.w_boot).2
  = (Ok (), (ensure_default_admin Cases.w_boot).2).
Proof.
  apply (@default_admin_is_idempotent reference_platform).
  intros d [= <-]. constructor.
Defined.

End more_examples.
